(** * EditorCore: the command handlers of the Wick Editor

    A shallow embedding of [src/Editor/EditorCore.jsx].  The handlers are
    methods of a React component: they read and write the shared project
    object, call into the engine and into the export and import helpers, and
    report to the user interface (toasts, modals, the wait overlay, the
    change notification [projectDidChange]).

    - JavaScript values are the inductive [JsVal]; the operators the handlers
      use ([!==], [+], [||], [!]) are functions on it.
    - The component is the record [Editor]: the project, the fields the
      handlers keep on [this], and the log of every call that leaves the file.
    - A handler is a computation in the state monad [M] over [Editor].
    - Engine methods whose code is not part of this file are the fields of
      the record [Engine], and what is read from the browser and the
      libraries the fields of [Browser]; every theorem holds for every
      engine and browser.
    - An asynchronous call hands callbacks to a helper and returns; the
      callbacks are definitions of their own, run on the state in which the
      helper calls them back. *)

From Stdlib Require Import PrimFloat.
From Stdlib Require SpecFloat FloatOps FloatAxioms.
From stdpp Require Import base option list strings gmap pretty.

Open Scope string_scope.

(** ** JavaScript values *)

(** Numbers are the binary64 floating-point numbers of IEEE 754, NaN and the
    infinities among them.  An engine object carries its identity and what
    its [toString] yields; an array carries its identity and its elements
    (reading a hole gives [undefined]). *)
#[warnings="-register-all"]
Inductive JsVal : Type :=
| VUndefined
| VNull
| VBool (b : bool)
| VNum (x : float)
| VStr (s : string)
| VObj (ref : positive) (repr : string)
| VArr (ref : positive) (elems : list JsVal).

(** [NaN] *)
Definition VNaN : JsVal := VNum nan.

(** [a === b]: primitives by value, numbers as IEEE 754 compares them (NaN
    equal to nothing, [-0] equal to [0]), objects and arrays by identity. *)
Definition strict_eq (a b : JsVal) : bool :=
  match a, b with
  | VUndefined, VUndefined => true
  | VNull, VNull => true
  | VBool x, VBool y => bool_decide (x = y)
  | VNum x, VNum y => PrimFloat.eqb x y
  | VStr x, VStr y => bool_decide (x = y)
  | VObj r _, VObj r' _ => bool_decide (r = r')
  | VArr r _, VArr r' _ => bool_decide (r = r')
  | _, _ => false
  end.

(** [a !== b] *)
Definition strict_ne (a b : JsVal) : bool := negb (strict_eq a b).

(** ToBoolean: [undefined], [null], [false], [0], [NaN] and the empty string
    are falsy. *)
Definition truthy (v : JsVal) : bool :=
  match v with
  | VUndefined | VNull => false
  | VBool b => b
  | VNum x => negb (PrimFloat.eqb x 0 || PrimFloat.is_nan x)
  | VStr s => negb (bool_decide (s = EmptyString))
  | VObj _ _ | VArr _ _ => true
  end.

(** [a || b] *)
Definition js_or (a b : JsVal) : JsVal := if truthy a then a else b.

(** [Array.prototype.join] *)
Fixpoint join_with (sep : string) (l : list string) : string :=
  match l with
  | [] => EmptyString
  | [s] => s
  | s :: l' => s ++ sep ++ join_with sep l'
  end.

(** The integer [s] for the decimal exponent [q], if [s * 10^q] rounds to
    the number whose rounding interval is [[lo, hi]] around [v], all three in
    units of [2^scale]; the ends belong to the interval when [closed]. *)
Definition decimal_candidate
    (closed : bool) (lo v hi scale q : Z) : option Z :=
  let up := ((if 0 <=? scale then 2 ^ scale else 1)
             * (if 0 <=? q then 1 else 10 ^ (- q)))%Z in
  let down := ((if 0 <=? scale then 1 else 2 ^ (- scale))
               * (if 0 <=? q then 10 ^ q else 1))%Z in
  let inside (s : Z) :=
    (0 <? s)%Z &&
    (if closed
     then (lo * up <=? s * down)%Z && (s * down <=? hi * up)%Z
     else (lo * up <? s * down)%Z && (s * down <? hi * up)%Z) in
  let below := (v * up / down)%Z in
  let above := (if (v * up mod down =? 0)%Z then below else below + 1)%Z in
  match inside below, inside above with
  | true, true =>
      let under := (v * up - below * down)%Z in
      let over := (above * down - v * up)%Z in
      Some (if (under <? over)%Z then below
            else if (over <? under)%Z then above
            else if Z.even below then below else above)
  | true, false => Some below
  | false, true => Some above
  | false, false => None
  end.

(** The largest decimal exponent from [q] down that has a candidate, with
    the candidate.  Seventeen digits tell any two numbers apart, so a search
    that starts at the exponent of the leading digit ends within [fuel]
    steps for any [fuel] above twenty. *)
Fixpoint shortest_decimal
    (fuel : nat) (closed : bool) (lo v hi scale q : Z) : Z * Z :=
  match fuel with
  | O => (0, 0)%Z
  | S fuel =>
      match decimal_candidate closed lo v hi scale q with
      | Some s => (s, q)
      | None => shortest_decimal fuel closed lo v hi scale (q - 1)
      end
  end.

(** [n] zeros *)
Fixpoint zeros (n : nat) : string :=
  match n with O => EmptyString | S n => "0" ++ zeros n end.

(** The digits of [s] with the decimal point where [s * 10^q] has it. *)
Definition format_decimal (s q : Z) : string :=
  let digits := pretty s in
  let k := Z.of_nat (String.length digits) in
  let n := (k + q)%Z in
  if (k <=? n)%Z && (n <=? 21)%Z then digits ++ zeros (Z.to_nat (n - k))
  else if (0 <? n)%Z && (n <=? 21)%Z then
    String.substring 0 (Z.to_nat n) digits ++ "."
      ++ String.substring (Z.to_nat n) (Z.to_nat (k - n)) digits
  else if (-6 <? n)%Z && (n <=? 0)%Z then "0." ++ zeros (Z.to_nat (- n)) ++ digits
  else
    let mantissa :=
      if (k =? 1)%Z then digits
      else String.substring 0 1 digits ++ "." ++ String.substring 1 (Z.to_nat (k - 1)) digits in
    mantissa ++ "e" ++ (if (0 <=? n - 1)%Z then "+" else "-")
      ++ pretty (Z.abs (n - 1)).

(** Number::toString in radix 10: the shortest decimal that rounds to the
    number (the closest one, if several are as short), written in positional
    form for exponents from [-6] to [21] and with an exponent otherwise.
    The number is [m * 2^e]; its rounding interval reaches half way to its
    neighbours, which are [2^e] away, but for [2^(e-1)] below a power of
    two. *)
Definition number_to_string (x : float) : string :=
  match FloatOps.Prim2SF x with
  | SpecFloat.S754_nan => "NaN"
  | SpecFloat.S754_zero _ => "0"
  | SpecFloat.S754_infinity false => "Infinity"
  | SpecFloat.S754_infinity true => "-Infinity"
  | SpecFloat.S754_finite negative m e =>
      let m := Z.pos m in
      let lo := (if (m =? 2 ^ 52)%Z && (-1074 <? e)%Z then 4 * m - 1 else 4 * m - 2)%Z in
      let hi := (4 * m + 2)%Z in
      let bits := (Z.log2 hi + (e - 2) + 1)%Z in
      let start := (bits * 30103 / 100000 + 1)%Z in
      let '(s, q) := shortest_decimal 40 (Z.even m) lo (4 * m) hi (e - 2) start in
      (if negative then "-" else EmptyString) ++ format_decimal s q
  end.

(** ToString.  An array is its elements joined by commas, [undefined] and
    [null] elements giving the empty string. *)
Fixpoint to_string (v : JsVal) : string :=
  match v with
  | VUndefined => "undefined"
  | VNull => "null"
  | VBool true => "true"
  | VBool false => "false"
  | VNum x => number_to_string x
  | VStr s => s
  | VObj _ repr => repr
  | VArr _ elems =>
      join_with ","
        (map (fun e => match e with
                       | VUndefined | VNull => EmptyString
                       | _ => to_string e
                       end) elems)
  end.

(** ToPrimitive: objects and arrays go through [toString]. *)
Definition to_primitive (v : JsVal) : JsVal :=
  match v with
  | VObj _ _ | VArr _ _ => VStr (to_string v)
  | _ => v
  end.

(** ToNumber on the primitives that are not strings: [undefined] is NaN. *)
Definition to_number (v : JsVal) : float :=
  match v with
  | VNull => 0
  | VBool true => 1
  | VBool false => 0
  | VNum x => x
  | _ => nan
  end.

(** [a + b]: string concatenation when either operand is a string after
    ToPrimitive, the IEEE 754 sum of the two numbers otherwise. *)
Definition js_add (a b : JsVal) : JsVal :=
  match to_primitive a, to_primitive b with
  | VStr s, pb => VStr (s ++ to_string pb)
  | pa, VStr s => VStr (to_string pa ++ s)
  | pa, pb => VNum (PrimFloat.add (to_number pa) (to_number pb))
  end.

(** [obj[key]] on a plain property bag: a missing key reads [undefined]. *)
Definition get_prop (o : gmap string JsVal) (key : string) : JsVal :=
  default VUndefined (o !! key).


(** [l.indexOf(x)]: the first index whose element is [=== x], or [-1]. *)
Fixpoint indexOf_from (i : Z) (l : list JsVal) (x : JsVal) : Z :=
  match l with
  | [] => (-1)%Z
  | y :: l' => if strict_eq y x then i else indexOf_from (i + 1)%Z l' x
  end.

Definition indexOf (l : list JsVal) (x : JsVal) : Z := indexOf_from 0%Z l x.

Arguments indexOf : simpl never.

(** An object literal: its own keys in insertion order. *)
Definition JsObject : Type := list (string * JsVal).

(** [Object.keys(o)] and [o[key]] *)
Definition Object_keys (o : JsObject) : list string := o.*1.

Fixpoint Object_get (o : JsObject) (key : string) : JsVal :=
  match o with
  | [] => VUndefined
  | (k, v) :: o' => if bool_decide (k = key) then v else Object_get o' key
  end.

(** Whether [s] ends in [suffix]. *)
Fixpoint ends_with (s suffix : string) : bool :=
  String.eqb s suffix ||
  match s with
  | EmptyString => false
  | String _ s' => ends_with s' suffix
  end.

(** The double quote character as a string. *)
Definition dquote : string := String (Ascii.ascii_of_nat 34) EmptyString.

(** ** The project and the component *)

(** A tool of the engine; the handlers only read its [name]. *)
Record Tool : Type := { tool_name : string }.

(** The project object as far as this file touches it: the properties read
    and written by key ([project[key]], among them [name]) as a property bag
    in which an assignment stores the value, the active tool the getter
    returns, the attributes of the selection object, and the tool settings
    the engine keeps. *)
Record Project : Type := {
  props : gmap string JsVal;
  activeTool : Tool;
  selection : gmap string JsVal;
  toolSettings : gmap string JsVal
}.

(** A [File] of the browser. *)
Record JsFile : Type := { file_name : string }.

(** The argument of [projectDidChange]; a key that is left out reads as
    [false] for [skipHistory]. *)
Record ChangeOpts : Type := {
  skipHistory : bool;
  actionName : string
}.

(** The argument object of the export handlers. *)
Record ExportArgs : Type := {
  args_name : JsVal;
  args_width : JsVal;
  args_height : JsVal
}.

(** What [saveAs] is given to write: a file or blob it was handed, or a
    [new Blob(parts, { type })]. *)
Inductive Payload : Type :=
| PFile (file : JsVal)
| PBlob (parts : list JsVal) (mime : option string).

(** The classes the handlers test with [instanceof]. *)
Inductive WickClass : Type := ImageAsset | ClipAsset | SVGAsset | Clip.

(** The creation calls of the engine. *)
Inductive CreateCall : Type :=
| createImagePathFromAsset
| createClipInstanceFromAsset
| createSVGInstanceFromAsset.

(** The helpers an export or import is delegated to. *)
Inductive Helper : Type :=
| HTMLPreview_previewProject
| WickFile_toWickFile
| GIFExport_createAnimatedGIFFromProject
| ImageSequence_toPNGSequence
| VideoExport_renderVideo
| SVGFile_toSVGFile
| ZIPExport_bundleProject
| HTMLExport_bundleProject
| AudioExport_generateAudioFile
| WickObjectFile_toWickObjectFile
| WickFile_fromWickFile
| Project_importFile.

(** Every call that leaves the file. *)
Inductive Event : Type :=
| Toast (text type : string) (keepOpen : bool)
| UpdateToast (id : nat) (type text : string)
| ProjectDidChange (opts : ChangeOpts)
| OpenModal (name : string)
| ToggleBrushModes (b : bool)
| ShowWaitOverlay
| HideWaitOverlay
| SetState (updates : list (string * JsVal))
| ConsoleError (args : list JsVal)
| ConsoleLog (args : list JsVal)
| SaveAs (data : Payload) (filename : JsVal)
| Create (call : CreateCall) (asset : JsVal) (x y : Z)
| Delegate (to : Helper) (options : list (string * JsVal))
| Fetch (url : JsVal)
| ResetEditorForLoad
| OnError
| ViewPrerender
| ViewRender.

(** The callback [setActiveTool] stores in [_onEyedropperPickedColor]. *)
Inductive EyedropperCallback : Type := SetFillColorToPicked.

(** The component.  [log] holds the newest event first. *)
Record Editor : Type := {
  project : Project;
  lastUsedTool : option Tool;
  _onEyedropperPickedColor : option EyedropperCallback;
  log : list Event
}.

(** The engine methods the handlers call: those whose result they use and
    those that change the project before they return. *)
Record Engine : Type := {
  (** [project.undo()], [project.redo()]: whether there was something to
      undo or redo, and the project afterwards *)
  project_undo : Project -> bool * Project;
  project_redo : Project -> bool * Project;
  (** the setter behind [project.activeTool = name] *)
  set_activeTool : string -> Project -> Project;
  (** [project.toolSettings.getSetting], [.setSetting] *)
  getSetting : string -> Project -> JsVal;
  setSetting : string -> JsVal -> Project -> Project;
  (** [project.selection.clear()], [project.selection.getSelectedObject()] *)
  selection_clear : Project -> Project;
  getSelectedObject : Project -> JsVal;
  (** [new Wick.Project()] *)
  new_Project : Project;
  (** [Wick.ObjectCache.getObjectByUUID], [obj instanceof Wick.C],
      [clip.identifier] *)
  getObjectByUUID : string -> JsVal;
  instanceOf : JsVal -> WickClass -> bool;
  identifier : JsVal -> JsVal;
  (** [paper.view.viewToProject] *)
  viewToProject : Z * Z -> Z * Z
}.

(** What the handlers read from the browser and from the libraries. *)
Record Browser : Type := {
  (** [queryString.parse(window.location.search).project] *)
  location_project : JsVal;
  (** [new urlParse(param)] and the [hostname] of the result *)
  urlParse : JsVal -> JsVal;
  hostname : JsVal -> JsVal;
  (** [x] and [y] of the canvas element's bounding rectangle *)
  canvasPosition : Z * Z;
  (** [timeStamp()] *)
  timeStamp : JsVal;
  (** [10 + (90 * (completed/maxFrames))], in floating point *)
  percentage : JsVal -> JsVal -> JsVal
}.

(** ** The state monad of the handlers *)

Definition M (A : Type) : Type := Editor -> A * Editor.

#[global] Instance M_ret : MRet M := fun A (a : A) ed => (a, ed).
#[global] Instance M_bind : MBind M :=
  fun A B (k : A -> M B) (m : M A) ed => let '(a, ed') := m ed in k a ed'.

Definition gets {A : Type} (f : Editor -> A) : M A := fun ed => (f ed, ed).
Definition modify (f : Editor -> Editor) : M unit := fun ed => (tt, f ed).

(** The state a computation ends in, and its result. *)
Definition exec {A : Type} (m : M A) (ed : Editor) : Editor := snd (m ed).
Definition eval {A : Type} (m : M A) (ed : Editor) : A := fst (m ed).

Definition with_project (p : Project) (ed : Editor) : Editor :=
  {| project := p; lastUsedTool := lastUsedTool ed;
     _onEyedropperPickedColor := _onEyedropperPickedColor ed; log := log ed |}.

Definition with_lastUsedTool (t : option Tool) (ed : Editor) : Editor :=
  {| project := project ed; lastUsedTool := t;
     _onEyedropperPickedColor := _onEyedropperPickedColor ed; log := log ed |}.

Definition with_eyedropper (c : option EyedropperCallback) (ed : Editor) : Editor :=
  {| project := project ed; lastUsedTool := lastUsedTool ed;
     _onEyedropperPickedColor := c; log := log ed |}.

Definition with_log (l : list Event) (ed : Editor) : Editor :=
  {| project := project ed; lastUsedTool := lastUsedTool ed;
     _onEyedropperPickedColor := _onEyedropperPickedColor ed; log := l |}.

Definition with_props (m : gmap string JsVal) (p : Project) : Project :=
  {| props := m; activeTool := activeTool p; selection := selection p;
     toolSettings := toolSettings p |}.

(** A call that leaves the file is put on the log. *)
Definition emit (e : Event) : M unit :=
  modify (fun ed => with_log (e :: log ed) ed).

(** The events a computation added to the log, oldest first. *)
Definition emitted {A : Type} (m : M A) (ed : Editor) : list Event :=
  rev (take (length (log (exec m ed)) - length (log ed)) (log (exec m ed))).

(** ** The user interface the component inherits *)

Definition is_toast (e : Event) : bool :=
  match e with Toast _ _ _ => true | _ => false end.

Definition is_change (e : Event) : bool :=
  match e with ProjectDidChange _ => true | _ => false end.


(** [this.toast(text, type, options)] returns an id by which the toast can
    be updated later; the id is the number of toasts shown before it.
    [keepOpen] stands for the options [{ autoClose: false }]. *)
Definition toast (text type : string) (keepOpen : bool) : M nat :=
  id ← gets (fun ed => length (filter is_toast (log ed)));
  emit (Toast text type keepOpen);;
  mret id.

Definition updateToast (id : nat) (type text : string) : M unit :=
  emit (UpdateToast id type text).

Definition projectDidChange (opts : ChangeOpts) : M unit :=
  emit (ProjectDidChange opts).

Definition openModal (name : string) : M unit := emit (OpenModal name).
Definition toggleBrushModes (b : bool) : M unit := emit (ToggleBrushModes b).
Definition showWaitOverlay : M unit := emit ShowWaitOverlay.
Definition hideWaitOverlay : M unit := emit HideWaitOverlay.
Definition resetEditorForLoad : M unit := emit ResetEditorForLoad.
Definition setState (updates : list (string * JsVal)) : M unit :=
  emit (SetState updates).
Definition console_error (args : list JsVal) : M unit := emit (ConsoleError args).
Definition console_log (args : list JsVal) : M unit := emit (ConsoleLog args).
Definition saveAs (data : Payload) (filename : JsVal) : M unit :=
  emit (SaveAs data filename).

(** [{ actionName: a }] and [{ skipHistory: true, actionName: a }] *)
Definition action (a : string) : ChangeOpts :=
  {| skipHistory := false; actionName := a |}.
Definition action_skipHistory (a : string) : ChangeOpts :=
  {| skipHistory := true; actionName := a |}.

(** The callbacks a handler hands to a helper.  A callback the handler does
    not pass is the one that does nothing. *)
Record Callbacks : Type := {
  onFinish : JsVal -> M unit;
  onError : JsVal -> M unit;
  onProgress : JsVal -> JsVal -> M unit
}.

Definition skip : M unit := mret tt.

Definition only_onFinish (k : JsVal -> M unit) : Callbacks :=
  {| onFinish := k; onError := fun _ => skip; onProgress := fun _ _ => skip |}.

Definition no_callbacks : Callbacks := only_onFinish (fun _ => skip).

(** ** The handlers *)

Section Handlers.

Context (engine : Engine) (browser : Browser).

(** [this.project = p], and [this.project.m()] for an engine method [m]
    that changes the project, without and with a result *)
Definition set_project (p : Project) : M unit := modify (with_project p).
Definition on_project (m : Project -> Project) : M unit :=
  modify (fun ed => with_project (m (project ed)) ed).
Definition call_project {A : Type} (m : Project -> A * Project) : M A :=
  fun ed => let '(a, p) := m (project ed) in (a, with_project p ed).

(** [this.project.name] *)
Definition project_name : M JsVal :=
  gets (fun ed => get_prop (props (project ed)) "name").

(** lines 36-38 *)
Definition getActiveTool : M Tool := gets (fun ed => activeTool (project ed)).

(** lines 44-61 *)
Definition setActiveTool (newTool : string) : M unit :=
  current ← getActiveTool;
  if bool_decide (newTool ≠ tool_name current) then
    previous ← getActiveTool;
    modify (with_lastUsedTool (Some previous));;
    on_project (set_activeTool engine newTool);;
    modify (with_eyedropper (Some SetFillColorToPicked));;
    toggleBrushModes false;;
    projectDidChange (action ("Set Active Tool: " ++ newTool))
  else skip.

(** lines 82-88 *)
Definition undoAction : M unit :=
  undone ← call_project (project_undo engine);
  if negb undone then
    toast "Nothing to undo." "warning" false;; skip
  else
    projectDidChange (action_skipHistory "Undo").

(** lines 93-99 *)
Definition redoAction : M unit :=
  redone ← call_project (project_redo engine);
  if negb redone then
    toast "Nothing to redo." "warning" false;; skip
  else
    projectDidChange (action_skipHistory "Redo").

(** lines 129-131 *)
Definition getToolSetting (name : string) : M JsVal :=
  gets (fun ed => getSetting engine name (project ed)).

(** lines 137-140 *)
Definition setToolSetting (name : string) (value : JsVal) : M unit :=
  on_project (setSetting engine name value);;
  projectDidChange
    (action ("Change Tool Setting " ++ name ++ ":" ++ to_string value)).

(** lines 164-179 *)
Definition changeBrushSize (amt : JsVal) : M unit :=
  tool ← gets (fun ed => tool_name (activeTool (project ed)));
  let option :=
    if bool_decide (tool = "brush") then Some "brushSize"
    else if bool_decide (tool = "eraser") then Some "eraserSize"
    else None in
  match option with
  | None => skip
  | Some option =>
      brushSize ← getToolSetting option;
      let newBrushSize := js_add brushSize amt in
      setToolSetting option newBrushSize
  end.

(** lines 382-398 *)
Definition getSelectionAttribute (attributeName : string) : M JsVal :=
  attribute ← gets (fun ed => get_prop (selection (project ed)) attributeName);
  match attribute with
  | VArr _ elems =>
      if bool_decide (length elems = 0) then mret VUndefined
      else if bool_decide (length elems = 1) then
        mret (default VUndefined (elems !! 0))
      else
        mret (default VUndefined (elems !! 0))
  | _ => mret attribute
  end.

(** line 714 *)
Definition validKeys : list JsVal :=
  [VStr "name"; VStr "width"; VStr "height"; VStr "backgroundColor";
   VStr "framerate"].

(** lines 717-725: the body of the [forEach], with the local [updated] passed
    through *)
Definition updateProjectSettings_key
    (newSettings : JsObject) (updated : bool) (key : string) : M bool :=
  if bool_decide (indexOf validKeys (VStr key) = (-1)%Z) then mret updated
  else
    oldVal ← gets (fun ed => get_prop (props (project ed)) key);
    if strict_ne oldVal (Object_get newSettings key) then
      on_project (fun p =>
        with_props (<[key := Object_get newSettings key]> (props p)) p);;
      mret true
    else mret updated.

(** [keys.forEach(body)] with a local variable the body updates *)
Fixpoint forEach {A S : Type} (body : S -> A -> M S) (s : S) (l : list A) : M S :=
  match l with
  | [] => mret s
  | a :: l' => s' ← body s a; forEach body s' l'
  end.

(** lines 713-730 *)
Definition updateProjectSettings (newSettings : JsObject) : M unit :=
  updated ← forEach (updateProjectSettings_key newSettings) false
                    (Object_keys newSettings);
  if (updated : bool) then projectDidChange (action "Update Project Settings")
  else skip.


(** lines 771-781: what the engine calls back when the object is created *)
Definition createImageFromAsset_created (call : CreateCall) : M unit :=
  match call with
  | createImagePathFromAsset =>
      projectDidChange (action "Create Image Path From Asset")
  | createClipInstanceFromAsset =>
      projectDidChange (action "Create Clip Instance From Asset")
  | createSVGInstanceFromAsset =>
      projectDidChange (action "Create SVG Instance From Asset")
  end.

(** lines 813-822: the callback handed to [project.importFile] *)
Definition importFileAsAsset_imported
    (file : JsFile) (callback : option (JsVal -> M unit)) (asset : JsVal) : M unit :=
  match callback with Some callback => callback asset | None => skip end;;
  if strict_eq asset VNull then
    toast ("Could not add files to project: " ++ file_name file) "error" false;;
    skip
  else
    toast ("Imported " ++ dquote ++ file_name file ++ dquote ++ " successfully.")
          "success" false;;
    projectDidChange (action "Import File As Asset").

(** lines 812-823 *)
Definition importFileAsAsset
    (file : JsFile) (callback : option (JsVal -> M unit)) : M (JsVal -> M unit) :=
  emit (Delegate Project_importFile []);;
  mret (importFileAsAsset_imported file callback).

(** lines 1253-1268: the handler given to [project.onError] *)
Definition errorHandler (message : JsVal) : M unit :=
  console_log [message];;
  if strict_eq message (VStr "OUT_OF_BOUNDS") || strict_eq message (VStr "LEAKY_HOLE") then
    toast "The shape you are trying to fill has a gap." "warning" false;; skip
  else if strict_eq message (VStr "NO_PATHS") then
    toast "There is no hole to fill." "warning" false;; skip
  else if strict_eq message (VStr "CLICK_NOT_ALLOWED_LAYER_LOCKED") then
    toast "The layer you are trying to draw onto is locked." "warning" false;; skip
  else if strict_eq message (VStr "CLICK_NOT_ALLOWED_LAYER_HIDDEN") then
    toast "The layer you are trying to draw onto is hidden." "warning" false;; skip
  else if strict_eq message (VStr "CLICK_NOT_ALLOWED_NO_FRAME") then
    toast "There is no frame to draw onto." "warning" false;; skip
  else
    toast (to_string message) "warning" false;; skip.

(** lines 1252-1269 *)
Definition attachErrorHandlers : M unit := emit OnError.

(** lines 1168-1180 *)
Definition setupNewProject (project : option Project) : M unit :=
  resetEditorForLoad;;
  set_project (default (new_Project engine) project);;
  on_project (selection_clear engine);;
  attachErrorHandlers;;
  projectDidChange (action "Setup New Project");;
  hideWaitOverlay;;
  emit ViewPrerender;;
  emit ViewRender.

(** lines 1152-1160: the callback handed to [WickFile.fromWickFile] *)
Definition importProjectAsWickFile_loaded
    (file : JsFile) (project : option Project) : M unit :=
  match project with
  | Some _ =>
      setupNewProject project;;
      toast ("Opened " ++ dquote ++ file_name file ++ dquote ++ " successfully.")
            "success" false;;
      skip
  | None =>
      toast "Could not open project." "error" false;;
      hideWaitOverlay
  end.

(** lines 1150-1161 *)
Definition importProjectAsWickFile (file : JsFile) : M (option Project -> M unit) :=
  showWaitOverlay;;
  emit (Delegate WickFile_fromWickFile []);;
  mret (importProjectAsWickFile_loaded file).

(** line 1225 *)
Definition whitelist : list JsVal :=
  [VStr "wickeditor.com"; VStr "editor.wickeditor.com";
   VStr "test.wickeditor.com"; VStr "aka.ms"].

(** lines 1211-1247 *)
Definition tryToParseProjectURL : M bool :=
  let urlParam := location_project browser in
  if negb (truthy urlParam) then mret false
  else
    let url := urlParse browser urlParam in
    if bool_decide (indexOf whitelist (hostname browser url) = (-1)%Z) then
      toast ("Could not open project from link! " ++ String (Ascii.ascii_of_nat 10)
               " URL is not on whitelist.") "warning" false;;
      console_error [VStr "tryToParseProjectURL: URL is not in the whitelist."];;
      mret false
    else
      emit (Fetch url);;
      mret true.

(** lines 1235-1239: the blob arrived *)
Definition tryToParseProjectURL_blob : M (option Project -> M unit) :=
  emit (Delegate WickFile_fromWickFile [("format", VStr "blob")]);;
  mret setupNewProject.

(** lines 1240-1244: the download failed *)
Definition tryToParseProjectURL_catch (e : JsVal) : M unit :=
  toast "Could not download project from URL." "warning" false;;
  console_error [VStr "tryToParseProjectURL: Could not download Wick project."];;
  console_error [e].

End Handlers.

(** The host names in [whitelist]. *)
Definition whitelisted_hosts : list string :=
  ["wickeditor.com"; "editor.wickeditor.com"; "test.wickeditor.com"; "aka.ms"].

(** The names in [validKeys]. *)
Definition valid_names : list string :=
  ["name"; "width"; "height"; "backgroundColor"; "framerate"].

(** A valid key whose new value is [!==] the value the project has. *)
Definition writes (newSettings : JsObject) (p : Project) (key : string) : bool :=
  bool_decide (key ∈ valid_names) &&
  strict_ne (get_prop (props p) key) (Object_get newSettings key).

(** What [updateProjectSettings] has to change: a key of the new settings
    that is valid and whose new value is [!==] the value the project has. *)
Definition differs (newSettings : JsObject) (p : Project) (key : string) : bool :=
  bool_decide (key ∈ Object_keys newSettings) && writes newSettings p key.

(** ** The export handlers *)

Section Exports.

Context (engine : Engine) (browser : Browser).

(** lines 882-890: the callback handed to [HTMLPreview.previewProject] *)
Definition exportProjectToNewWindow_opened (previewWindow : JsVal) : M unit :=
  hideWaitOverlay;;
  if truthy previewWindow then
    toast "Project preview window opened." "info" true;; skip
  else
    toast "Could not open a preview window. Try disabling your popup blocker!"
          "error" true;;
    skip.

(** lines 880-891 *)
Definition exportProjectToNewWindow : M Callbacks :=
  showWaitOverlay;;
  emit (Delegate HTMLPreview_previewProject []);;
  mret (only_onFinish exportProjectToNewWindow_opened).

(** lines 900-914: the callback handed to [WickFile.toWickFile] *)
Definition exportProjectAsWickFile_written (toastID : nat) (file : JsVal) : M unit :=
  if strict_eq file VUndefined then
    updateToast toastID "error" "Could not export .wick file.";;
    hideWaitOverlay
  else
    updateToast toastID "success" "Successfully saved .wick file.";;
    name ← project_name;
    saveAs (PFile file) (js_add (js_add name (timeStamp browser)) (VStr ".wick"));;
    hideWaitOverlay.

(** lines 896-915 *)
Definition exportProjectAsWickFile : M Callbacks :=
  showWaitOverlay;;
  toastID ← toast "Exporting project as a .wick file..." "info" true;
  emit (Delegate WickFile_toWickFile []);;
  mret (only_onFinish (exportProjectAsWickFile_written toastID)).

(** lines 944-953 *)
Definition exportProjectAsAnimatedGIF_onFinish
    (outputName : JsVal) (toastID : nat) (gifBlob : JsVal) : M unit :=
  saveAs (PFile gifBlob) (js_add outputName (VStr ".gif"));;
  updateToast toastID "success" "Successfully created .gif file.";;
  setState [("renderStatusMessage", VStr "Finished exporting GIF.");
            ("renderProgress", VNum 100)].

(** lines 920-964 *)
Definition exportProjectAsAnimatedGIF (args : ExportArgs) : M Callbacks :=
  openModal "ExportMedia";;
  setState [("renderProgress", VNum 0); ("renderType", VStr "gif");
            ("renderStatusMessage", VStr "Creating gif.")];;
  name ← project_name;
  let outputName := js_or (args_name args) name in
  toastID ← toast "Exporting animated GIF..." "info" false;
  let onProgress message progress :=
    setState [("renderStatusMessage", message); ("renderProgress", progress)] in
  let onError message :=
    console_error [VStr "Gif Render had an error with message: "; message] in
  let onFinish := exportProjectAsAnimatedGIF_onFinish outputName toastID in
  emit (Delegate GIFExport_createAnimatedGIFFromProject
          [("width", args_width args); ("height", args_height args)]);;
  mret {| onFinish := onFinish; onError := onError; onProgress := onProgress |}.

(** lines 993-1001 *)
Definition exportProjectAsImageSequence_onFinish
    (toastID : nat) (sequenceBlobZip : JsVal) : M unit :=
  updateToast toastID "success" "Successfully created image sequence.";;
  name ← project_name;
  saveAs (PFile sequenceBlobZip) (js_add name (VStr "_imageSequence.zip"));;
  setState [("exporting", VBool false)].

(** lines 969-1017 *)
Definition exportProjectAsImageSequence (args : ExportArgs) : M Callbacks :=
  openModal "ExportMedia";;
  setState [("renderProgress", VNum 0); ("renderType", VStr "image sequence");
            ("renderStatusMessage", VStr "Creating image sequence.");
            ("exporting", VBool true)];;
  toastID ← toast "Exporting image sequence..." "info" false;
  let onProgress completed maxFrames :=
    let message :=
      js_add (js_add (js_add (js_add (VStr "Rendered ") completed) (VStr "/"))
                     maxFrames) (VStr " frames") in
    let percentage := percentage browser completed maxFrames in
    setState [("renderStatusMessage", message); ("renderProgress", percentage)] in
  let onError message :=
    console_error [VStr "Image Render had an error with message: "; message] in
  let onFinish := exportProjectAsImageSequence_onFinish toastID in
  emit (Delegate ImageSequence_toPNGSequence
          [("width", args_width args); ("height", args_height args)]);;
  mret {| onFinish := fun file => hideWaitOverlay;; onFinish file;
          onError := fun _ => hideWaitOverlay;; onError VUndefined;
          onProgress := onProgress |}.

(** lines 1045-1054 *)
Definition exportProjectAsVideo_onFinish (toastID : nat) (message : JsVal) : M unit :=
  updateToast toastID "success" "Successfully created .mp4 file.";;
  console_log [VStr "Video Render Complete: "; message];;
  setState [("exporting", VBool false)].

(** lines 1022-1071 *)
Definition exportProjectAsVideo (args : ExportArgs) : M Callbacks :=
  openModal "ExportMedia";;
  setState [("renderProgress", VNum 10); ("renderType", VStr "video");
            ("renderStatusMessage", VStr "Creating video.");
            ("exporting", VBool true)];;
  toastID ← toast "Exporting video..." "info" false;
  let onProgress message progress :=
    setState [("renderStatusMessage", message); ("renderProgress", progress)] in
  let onError message :=
    console_error [VStr "Video Render had an error with message: "; message] in
  let onFinish := exportProjectAsVideo_onFinish toastID in
  emit (Delegate VideoExport_renderVideo
          [("width", args_width args); ("height", args_height args)]);;
  mret {| onFinish := fun _ => hideWaitOverlay;; onFinish VUndefined;
          onError := fun _ => hideWaitOverlay;; onError VUndefined;
          onProgress := onProgress |}.

(** lines 1091-1097 *)
Definition exportProjectAsImageSVG_onFinish (toastID : nat) (file : JsVal) : M unit :=
  updateToast toastID "success" "Successfully saved .wick file.";;
  name ← project_name;
  saveAs (PFile file) (js_add (js_add name (timeStamp browser)) (VStr ".svg"));;
  hideWaitOverlay.

(** lines 1076-1105 *)
Definition exportProjectAsImageSVG : M Callbacks :=
  openModal "ExportMedia";;
  setState [("renderProgress", VNum 0); ("renderType", VStr "svg");
            ("renderStatusMessage", VStr "Creating svg.")];;
  toastID ← toast "Exporting svg..." "info" false;
  let onError message :=
    console_error [VStr "SVG builder had an error with message: "; message] in
  let onFinish := exportProjectAsImageSVG_onFinish toastID in
  emit (Delegate SVGFile_toSVGFile []);;
  mret {| onFinish := fun file => hideWaitOverlay;; onFinish file;
          onError := onError;
          onProgress := fun _ _ => skip |}.

(** lines 1113-1118: the callback handed to [ZIPExport.bundleProject] *)
Definition exportProjectAsStandaloneZip_bundled
    (outputName : JsVal) (toastID : nat) (blob : JsVal) : M unit :=
  updateToast toastID "success" "Successfully created .zip file.";;
  saveAs (PFile blob) (js_add outputName (VStr ".zip")).

(** lines 1110-1119 *)
Definition exportProjectAsStandaloneZip (args : ExportArgs) : M Callbacks :=
  toastID ← toast "Exporting project as ZIP..." "info" false;
  name ← project_name;
  let outputName := js_or (args_name args) name in
  emit (Delegate ZIPExport_bundleProject []);;
  mret (only_onFinish (exportProjectAsStandaloneZip_bundled outputName toastID)).

(** lines 1127-1132: the callback handed to [HTMLExport.bundleProject] *)
Definition exportProjectAsStandaloneHTML_bundled
    (outputName : JsVal) (toastID : nat) (html : JsVal) : M unit :=
  updateToast toastID "success" "Successfully created .html file.";;
  saveAs (PBlob [html] (Some "text/plain")) (js_add outputName (VStr ".html")).

(** lines 1124-1133 *)
Definition exportProjectAsStandaloneHTML (args : ExportArgs) : M Callbacks :=
  toastID ← toast "Exporting project as HTML..." "info" false;
  name ← project_name;
  let outputName := js_or (args_name args) name in
  emit (Delegate HTMLExport_bundleProject []);;
  mret (only_onFinish (exportProjectAsStandaloneHTML_bundled outputName toastID)).

(** lines 1141-1143: the promise of [AudioExport.generateAudioFile] resolved *)
Definition exportProjectAsAudioTrack_then (result : JsVal) : M unit :=
  saveAs (PBlob [result] None) (VStr "audiotrack.wav").

(** lines 1138-1144 *)
Definition exportProjectAsAudioTrack (args : ExportArgs) : M Callbacks :=
  emit (Delegate AudioExport_generateAudioFile []);;
  mret (only_onFinish exportProjectAsAudioTrack_then).

(** lines 1557-1559: the callback handed to [WickObjectFile.toWickObjectFile] *)
Definition exportSelectedClip_written (clip file : JsVal) : M unit :=
  saveAs (PFile file)
         (js_add (js_or (identifier engine clip) (VStr "object")) (VStr ".wickobj")).

(** lines 1552-1560 *)
Definition exportSelectedClip : M Callbacks :=
  clip ← gets (fun ed => getSelectedObject engine (project ed));
  if negb (truthy clip) then mret no_callbacks
  else if negb (instanceOf engine clip Clip) then mret no_callbacks
  else
    emit (Delegate WickObjectFile_toWickObjectFile [("format", VStr "blob")]);;
    mret (only_onFinish (exportSelectedClip_written clip)).

(** The export handlers of the file, each with the argument object it is
    called with (some take none). *)
Inductive ExportHandler : Type :=
| ToNewWindow | AsWickFile | AsAnimatedGIF | AsImageSequence | AsVideo
| AsImageSVG | AsStandaloneZip | AsStandaloneHTML | AsAudioTrack | SelectedClip.

Definition export_handler (h : ExportHandler) : ExportArgs -> M Callbacks :=
  match h with
  | ToNewWindow => fun _ => exportProjectToNewWindow
  | AsWickFile => fun _ => exportProjectAsWickFile
  | AsAnimatedGIF => exportProjectAsAnimatedGIF
  | AsImageSequence => exportProjectAsImageSequence
  | AsVideo => exportProjectAsVideo
  | AsImageSVG => fun _ => exportProjectAsImageSVG
  | AsStandaloneZip => exportProjectAsStandaloneZip
  | AsStandaloneHTML => exportProjectAsStandaloneHTML
  | AsAudioTrack => exportProjectAsAudioTrack
  | SelectedClip => fun _ => exportSelectedClip
  end.

End Exports.

(** The helper each export handler delegates to. *)
Definition export_module (h : ExportHandler) : Helper :=
  match h with
  | ToNewWindow => HTMLPreview_previewProject
  | AsWickFile => WickFile_toWickFile
  | AsAnimatedGIF => GIFExport_createAnimatedGIFFromProject
  | AsImageSequence => ImageSequence_toPNGSequence
  | AsVideo => VideoExport_renderVideo
  | AsImageSVG => SVGFile_toSVGFile
  | AsStandaloneZip => ZIPExport_bundleProject
  | AsStandaloneHTML => HTMLExport_bundleProject
  | AsAudioTrack => AudioExport_generateAudioFile
  | SelectedClip => WickObjectFile_toWickObjectFile
  end.

(** The five handlers of lines 920-1119, one per format: animated GIF, image
    sequence, video, SVG image, standalone ZIP. *)
Definition format_exports : list ExportHandler :=
  [AsAnimatedGIF; AsImageSequence; AsVideo; AsImageSVG; AsStandaloneZip].

(** The handlers that open the [ExportMedia] modal. *)
Definition modal_exports : list ExportHandler :=
  [AsAnimatedGIF; AsImageSequence; AsVideo; AsImageSVG].

(** The three steps of an export, for the handler [h] called with [args] in
    the state [ed]: it opens a modal; it delegates to its helper; and when
    the helper finishes, in whatever state and with whatever result, the
    toast the handler showed is turned into a success toast. *)
Definition opens_modal
    (engine : Engine) (browser : Browser) (h : ExportHandler)
    (args : ExportArgs) (ed : Editor) : Prop :=
  ∃ name, OpenModal name ∈ emitted (export_handler engine browser h args) ed.

Definition delegates
    (engine : Engine) (browser : Browser) (h : ExportHandler)
    (args : ExportArgs) (ed : Editor) : Prop :=
  ∃ options,
    Delegate (export_module h) options
      ∈ emitted (export_handler engine browser h args) ed.

Definition shows_success_when_finished
    (engine : Engine) (browser : Browser) (h : ExportHandler)
    (args : ExportArgs) (ed : Editor) : Prop :=
  let callbacks := eval (export_handler engine browser h args) ed in
  let toastID := length (filter is_toast (log ed)) in
  (∃ text, Toast text "info" false
             ∈ emitted (export_handler engine browser h args) ed) ∧
  ∀ (result : JsVal) (later : Editor),
    ∃ text, UpdateToast toastID "success" text
              ∈ emitted (onFinish callbacks result) later.

Definition export_orchestration
    (engine : Engine) (browser : Browser) (h : ExportHandler)
    (args : ExportArgs) (ed : Editor) : Prop :=
  opens_modal engine browser h args ed ∧
  delegates engine browser h args ed ∧
  shows_success_when_finished engine browser h args ed.

(** The extensions of the files an export produces. *)
Definition export_extensions : list string :=
  [".wick"; ".gif"; ".mp4"; ".svg"; ".zip"; ".html"; ".wav"; ".wickobj"].

Definition has_export_extension (filename : JsVal) : Prop :=
  ∃ name ext,
    filename = VStr name ∧ ext ∈ export_extensions ∧ ends_with name ext = true.

(** Every [saveAs] among the events saves under such a file name. *)
Definition saves_with_export_extension (events : list Event) : Prop :=
  ∀ data filename, SaveAs data filename ∈ events → has_export_extension filename.

(** ** Further handlers of the file *)

(** [Array.prototype.includes] compares with SameValueZero: as [===], but
    NaN is found. *)
Definition same_value_zero (a b : JsVal) : bool :=
  match a, b with
  | VNum x, VNum y => PrimFloat.eqb x y || (PrimFloat.is_nan x && PrimFloat.is_nan y)
  | _, _ => strict_eq a b
  end.

Definition includes (l : list JsVal) (x : JsVal) : bool :=
  existsb (fun y => same_value_zero y x) l.

(** Further engine methods the handlers call. *)
Record MoreEngine : Type := {
  (** the setter behind [project.activeTool = tool] for a tool object, or
      [undefined] when there is none *)
  assign_activeTool : option Tool -> Project -> Project;
  (** [new Wick.Color(color)] *)
  Wick_Color : JsVal -> JsVal;
  (** [project.selection.select(object)] *)
  selection_select : JsVal -> Project -> Project;
  (** [project.selection.allAttributeNames], [.numObjects], [.types] *)
  selection_allAttributeNames : Project -> list string;
  selection_numObjects : Project -> JsVal;
  selection_types : Project -> list JsVal;
  (** [project.createClipFromSelection({ identifier, type })] *)
  project_createClipFromSelection : JsVal -> string -> Project -> Project;
  (** [project.breakApartSelection()] *)
  project_breakApartSelection : Project -> Project;
  (** [project.copySelectionToClipboard()] and its three siblings: whether
      there was something to work on, and the project afterwards *)
  project_copySelectionToClipboard : Project -> bool * Project;
  project_duplicateSelection : Project -> bool * Project;
  project_cutSelectionToClipboard : Project -> bool * Project;
  project_pasteClipboardContents : Project -> bool * Project
}.

(** The four handlers of the clipboard. *)
Inductive ClipboardAction : Type := Copy | Duplicate | Cut | Paste.

Section MoreHandlers.

Context (engine : Engine) (more : MoreEngine).

(** [project[key] = !project[key]] *)
Definition toggle_prop (key : string) : M unit :=
  on_project (fun p =>
    with_props (<[key := VBool (negb (truthy (get_prop (props p) key)))]> (props p)) p).

(** lines 66-69 *)
Definition toggleClipBorders : M unit :=
  toggle_prop "showClipBorders";;
  projectDidChange (action "Toggle Clip Borders").

(** lines 1338-1341 *)
Definition toggleOnionSkin : M unit :=
  toggle_prop "onionSkinEnabled";;
  projectDidChange (action "Toggle Onion Skinning").

(** lines 74-77 *)
Definition activateLastTool : M unit :=
  lastUsedTool ← gets lastUsedTool;
  on_project (assign_activeTool more lastUsedTool);;
  projectDidChange (action "Activate Last Tool").

(** lines 49-51: the callback [setActiveTool] stores *)
Definition eyedropper_callback (c : EyedropperCallback) (color : JsVal) : M unit :=
  match c with
  | SetFillColorToPicked =>
      on_project (setSetting engine "fillColor" (Wick_Color more color))
  end.

(** lines 1562-1565, given [e.color].  Calling the callback throws when none
    was stored: the answer is then [None]. *)
Definition onEyedropperPickedColor (color : JsVal) (ed : Editor)
    : option (unit * Editor) :=
  match _onEyedropperPickedColor ed with
  | None => None
  | Some callback => Some ((eyedropper_callback callback color;; activateLastTool) ed)
  end.

(** lines 353-358 *)
Definition selectObjects (objects : list JsVal) : M unit :=
  forEach (fun (_ : unit) object => on_project (selection_select more object))
          tt objects;;
  projectDidChange (action "Select Multiple Objects").

(** lines 404-406 *)
Definition getAllSelectionAttributeNames : M (list string) :=
  gets (fun ed => selection_allAttributeNames more (project ed)).

(** lines 412-422; the object built is a map from names to values *)
Definition getAllSelectionAttributes : M (gmap string JsVal) :=
  let newAttributes : gmap string JsVal := ∅ in
  selectionAttributeNames ← getAllSelectionAttributeNames;
  forEach (fun (newAttributes : gmap string JsVal) name =>
             value ← getSelectionAttribute name;
             mret (<[name := value]> newAttributes))
          newAttributes selectionAttributeNames.

(** lines 450-464; a [wrapSingularClip] that is [undefined] takes the default
    [true] *)
Definition createClipFromSelection (name wrapSingularClip : JsVal) : M unit :=
  let wrapSingularClip :=
    if strict_eq wrapSingularClip VUndefined then VBool true
    else wrapSingularClip in
  numObjects ← gets (fun ed => selection_numObjects more (project ed));
  types ← gets (fun ed => selection_types more (project ed));
  if strict_eq numObjects (VNum 0) then
    console_log [VStr "No selection from which to create clips."]
  else if negb (truthy wrapSingularClip) && strict_eq numObjects (VNum 1)
          && strict_eq (default VUndefined (types !! 0)) (VStr "Clip") then
    console_log [VStr "That's already a Clip."]
  else
    on_project (project_createClipFromSelection more name "Clip");;
    projectDidChange (action "Create Clip From Selection").

(** lines 470-476 *)
Definition createButtonFromSelection (name : JsVal) : M unit :=
  on_project (project_createClipFromSelection more name "Button");;
  projectDidChange (action "Create Button From Selection").

(** lines 490-499 *)
Definition breakApartSelection : M unit :=
  numObjects ← gets (fun ed => selection_numObjects more (project ed));
  types ← gets (fun ed => selection_types more (project ed));
  if strict_eq numObjects (VNum 0)
     || (negb (includes types (VStr "Clip")) && negb (includes types (VStr "Button")))
  then skip
  else
    on_project (project_breakApartSelection more);;
    projectDidChange (action "Break Apart Selection").

(** lines 1424-1430 *)
Definition copySelectionToClipboard : M unit :=
  copied ← call_project (project_copySelectionToClipboard more);
  if (copied : bool) then projectDidChange (action "Copy Selection")
  else toast "There is nothing to copy." "warning" false;; skip.

(** lines 1435-1441 *)
Definition duplicateSelection : M unit :=
  duplicated ← call_project (project_duplicateSelection more);
  if (duplicated : bool) then projectDidChange (action "Duplicate Selection")
  else toast "There is nothing to duplicate." "warning" false;; skip.

(** lines 1446-1452 *)
Definition cutSelectionToClipboard : M unit :=
  cut ← call_project (project_cutSelectionToClipboard more);
  if (cut : bool) then projectDidChange (action "Cut Selection")
  else toast "There is nothing to duplicate." "warning" false;; skip.

(** lines 1458-1464 *)
Definition pasteFromClipboard : M unit :=
  pasted ← call_project (project_pasteClipboardContents more);
  if (pasted : bool) then projectDidChange (action "Paste from Clipboard")
  else toast "There is nothing in the clipboard to paste." "warning" false;; skip.

Definition clipboard_handler (a : ClipboardAction) : M unit :=
  match a with
  | Copy => copySelectionToClipboard
  | Duplicate => duplicateSelection
  | Cut => cutSelectionToClipboard
  | Paste => pasteFromClipboard
  end.

Definition clipboard_call (a : ClipboardAction) : Project -> bool * Project :=
  match a with
  | Copy => project_copySelectionToClipboard more
  | Duplicate => project_duplicateSelection more
  | Cut => project_cutSelectionToClipboard more
  | Paste => project_pasteClipboardContents more
  end.

End MoreHandlers.

(** An entry of the list [getClipAnimationTypes] answers: [{ label, value }]. *)
Record AnimationOption : Type := {
  label : JsVal;
  value : string
}.

(** lines 153-159, given the table [Wick.Clip.animationTypes] *)
Definition getClipAnimationTypes (animationTypes : JsObject) : M (list AnimationOption) :=
  let outputTypes : list AnimationOption := [] in
  forEach (fun (outputTypes : list AnimationOption) key =>
             mret (outputTypes ++ [{| label := Object_get animationTypes key;
                                      value := key |}])%list)
          outputTypes (Object_keys animationTypes).

(** The messages of the engine that [errorHandler] has a text for. *)
Definition engine_error_codes : list string :=
  ["OUT_OF_BOUNDS"; "LEAKY_HOLE"; "NO_PATHS"; "CLICK_NOT_ALLOWED_LAYER_LOCKED";
   "CLICK_NOT_ALLOWED_LAYER_HIDDEN"; "CLICK_NOT_ALLOWED_NO_FRAME"].

(** How often an event of a kind is in a list of events. *)
Definition count_events (kind : Event -> bool) (events : list Event) : nat :=
  length (filter kind events).

Definition is_show (e : Event) : bool :=
  match e with ShowWaitOverlay => true | _ => false end.

Definition is_hide (e : Event) : bool :=
  match e with HideWaitOverlay => true | _ => false end.

Definition is_save (e : Event) : bool :=
  match e with SaveAs _ _ => true | _ => false end.

(** What an error callback may do: write to the console and hide the wait
    overlay. *)
Definition is_quiet (e : Event) : bool :=
  match e with ConsoleError _ | HideWaitOverlay => true | _ => false end.

(** ** A small engine and editor to run the handlers on *)

Module Demo.

Definition project0 : Project :=
  {| props := {[ "name" := VStr "My Project"; "width" := VNum 720;
                 "height" := VNum 480; "framerate" := VNum 12 ]};
     activeTool := {| tool_name := "cursor" |};
     selection := {[ "fillColor" := VArr 1 [VStr "#ff0000"; VStr "#00ff00"];
                     "strokeWidth" := VArr 2 [VNum 3];
                     "fontFamily" := VArr 3 [];
                     "selectionType" := VStr "path" ]};
     toolSettings := {[ "brushSize" := VNum 10; "eraserSize" := VNum 4 ]} |}.

(** An engine whose undo never has anything to undo and whose redo always
    has, and whose setters store what they are given. *)
Definition engine0 : Engine :=
  {| project_undo := fun p => (false, p);
     project_redo := fun p => (true, p);
     set_activeTool := fun name p =>
       {| props := props p; activeTool := {| tool_name := name |};
          selection := selection p; toolSettings := toolSettings p |};
     getSetting := fun name p => get_prop (toolSettings p) name;
     setSetting := fun name value p =>
       {| props := props p; activeTool := activeTool p;
          selection := selection p;
          toolSettings := <[name := value]> (toolSettings p) |};
     selection_clear := fun p =>
       {| props := props p; activeTool := activeTool p;
          selection := ∅; toolSettings := toolSettings p |};
     getSelectedObject := fun _ => VObj 7 "[object Object]";
     new_Project := project0;
     getObjectByUUID := fun uuid =>
       if bool_decide (uuid = "image-1") then VObj 11 "[object Object]"
       else if bool_decide (uuid = "clip-1") then VObj 12 "[object Object]"
       else if bool_decide (uuid = "svg-1") then VObj 13 "[object Object]"
       else if bool_decide (uuid = "sound-1") then VObj 14 "[object Object]"
       else VUndefined;
     instanceOf := fun obj c =>
       match obj, c with
       | VObj 11 _, ImageAsset => true
       | VObj 12 _, ClipAsset => true
       | VObj 13 _, SVGAsset => true
       | VObj 7 _, Clip => true
       | _, _ => false
       end;
     identifier := fun _ => VUndefined;
     viewToProject := fun xy => xy |}.

Definition browser0 (param : JsVal) (host : string) : Browser :=
  {| location_project := param;
     urlParse := fun v => VObj 21 (to_string v);
     hostname := fun _ => VStr host;
     canvasPosition := (100, 50)%Z;
     timeStamp := VStr "_1-1-2020_12-00-00";
     percentage := fun _ _ => VNum 55 |}.

Definition editor0 : Editor :=
  {| project := project0; lastUsedTool := None;
     _onEyedropperPickedColor := None; log := [] |}.

Definition brush_editor : Editor :=
  with_project (set_activeTool engine0 "brush" project0) editor0.

Definition args0 : ExportArgs :=
  {| args_name := VUndefined; args_width := VNum 720; args_height := VNum 480 |}.

End Demo.

(** The further engine methods for the small engine: tools are assigned as
    they are given, the selection holds two objects of which one is a clip,
    and only copying finds something to work on. *)
Module DemoMore.

Definition more0 : MoreEngine :=
  {| assign_activeTool := fun tool p =>
       {| props := props p;
          activeTool := default {| tool_name := "cursor" |} tool;
          selection := selection p; toolSettings := toolSettings p |};
     Wick_Color := fun color => VObj 41 (to_string color);
     selection_select := fun _ p => p;
     selection_allAttributeNames := fun _ =>
       ["fillColor"; "strokeWidth"; "fontFamily"];
     selection_numObjects := fun _ => VNum 2;
     selection_types := fun _ => [VStr "Path"; VStr "Clip"];
     project_createClipFromSelection := fun name type p =>
       with_props (<["lastCreated" := js_add (VStr type) name]> (props p)) p;
     project_breakApartSelection := fun p => p;
     project_copySelectionToClipboard := fun p => (true, p);
     project_duplicateSelection := fun p => (false, p);
     project_cutSelectionToClipboard := fun p => (false, p);
     project_pasteClipboardContents := fun p => (false, p) |}.

End DemoMore.

(** ** Facts about the values and the log *)

Lemma strict_eq_VStr (s : string) (v : JsVal) :
  strict_eq (VStr s) v = true ↔ v = VStr s.
Proof.
  destruct v; simpl; try (split; [discriminate | congruence]).
  rewrite bool_decide_eq_true. split; congruence.
Qed.

(** [indexOf] answers [-1] exactly when no element is [===] to the one
    looked for. *)
Lemma indexOf_from_none (i : Z) (l : list JsVal) (x : JsVal) :
  (0 ≤ i)%Z →
  indexOf_from i l x = (-1)%Z ↔ Forall (fun y => strict_eq y x = false) l.
Proof.
  revert i. induction l as [|y l IH]; intros i Hi; simpl.
  - split; [constructor | done].
  - destruct (strict_eq y x) eqn:E.
    + split; [lia | by inversion 1; congruence].
    + rewrite IH by lia. split; [by constructor | by inversion 1].
Qed.

Lemma indexOf_strings (names : list string) (x : JsVal) :
  indexOf (VStr <$> names) x = (-1)%Z ↔ x ∉ VStr <$> names.
Proof.
  unfold indexOf. rewrite indexOf_from_none by lia.
  rewrite Forall_fmap, Forall_forall. split.
  - intros H [s [-> Hs]]%list_elem_of_fmap.
    specialize (H s Hs). simpl in H. by rewrite bool_decide_eq_false in H.
  - intros H s Hs. simpl. destruct (strict_eq (VStr s) x) eqn:E; [|done].
    apply strict_eq_VStr in E as ->. destruct H. by apply list_elem_of_fmap_2.
Qed.

Lemma indexOf_from_found (i : Z) (l : list JsVal) (x : JsVal) :
  indexOf_from i l x ≠ (-1)%Z → Exists (fun y => strict_eq y x = true) l.
Proof.
  revert i. induction l as [|y l IH]; intros i; simpl; [done|].
  destruct (strict_eq y x) eqn:E; [by left | right; eauto].
Qed.

Lemma indexOf_strings_found (names : list string) (x : JsVal) :
  indexOf (VStr <$> names) x ≠ (-1)%Z → x ∈ VStr <$> names.
Proof.
  intros (y & Hy & E)%indexOf_from_found%Exists_exists.
  apply list_elem_of_fmap in Hy as (s & -> & Hs).
  apply strict_eq_VStr in E as ->. by apply list_elem_of_fmap_2.
Qed.

Lemma to_string_to_primitive (v : JsVal) :
  to_string (to_primitive v) = to_string v.
Proof. by destruct v. Qed.

(** Adding a string on the right always gives a string that ends in it. *)
Lemma js_add_VStr_r (v : JsVal) (s : string) :
  js_add v (VStr s) = VStr (to_string v ++ s).
Proof.
  unfold js_add. rewrite <- (to_string_to_primitive v).
  by destruct (to_primitive v) as [| |[]| | | |].
Qed.

Lemma js_add_VStr_l (s : string) (v : JsVal) :
  js_add (VStr s) v = VStr (s ++ to_string v).
Proof. unfold js_add. simpl. by rewrite to_string_to_primitive. Qed.

Lemma js_add_VNum (a b : float) : js_add (VNum a) (VNum b) = VNum (a + b).
Proof. done. Qed.

(** [+] rounds as IEEE 754 does, and numbers print as [String] prints
    them. *)
Lemma js_add_rounds :
  js_add (VNum 1) (VNum 0x1p53) = VNum 0x1p53 ∧
  js_add (VNum 0x1p53) (VNum (- 0x1p53)) = VNum 0 ∧
  js_add VUndefined (VNum 1) = VNaN ∧
  js_add (VNum 10) (VStr "px") = VStr "10px".
Proof. repeat split; vm_compute; reflexivity. Qed.

Lemma number_to_string_samples :
  number_to_string 0x1p53 = "9007199254740992" ∧
  number_to_string 1e21 = "1e+21" ∧
  number_to_string 0x1.ac53a7e04bcdap+66 = "123456789012345680000" ∧
  number_to_string 1.5 = "1.5" ∧
  number_to_string (-12) = "-12" ∧
  number_to_string 0x1p-20 = "9.5367431640625e-7" ∧
  number_to_string 0x1p-1074 = "5e-324" ∧
  number_to_string (- 0) = "0" ∧
  number_to_string (0 / 0) = "NaN" ∧
  number_to_string (1 / 0) = "Infinity".
Proof. repeat split; vm_compute; reflexivity. Qed.

Lemma ends_with_refl (s : string) : ends_with s s = true.
Proof. destruct s; cbn [ends_with]; by rewrite String.eqb_refl. Qed.

Lemma ends_with_app (a b : string) : ends_with (a ++ b) b = true.
Proof.
  induction a as [|c a IH].
  - apply ends_with_refl.
  - change (String c a ++ b) with (String c (a ++ b)).
    cbn [ends_with]. rewrite IH. apply orb_true_r.
Qed.

(** A computation that only puts [new] on the log emitted [new]. *)
Lemma emitted_of_log {A : Type} (m : M A) (ed : Editor) (new : list Event) :
  log (exec m ed) = (rev new ++ log ed)%list → emitted m ed = new.
Proof.
  intros H. unfold emitted. rewrite H, length_app.
  replace (length (rev new) + length (log ed) - length (log ed))
    with (length (rev new)) by lia.
  by rewrite take_app_length, rev_involutive.
Qed.

Lemma emitted_of_newest {A : Type} (m : M A) (ed : Editor) (newest : list Event) :
  log (exec m ed) = (newest ++ log ed)%list → emitted m ed = rev newest.
Proof. intros H. apply emitted_of_log. by rewrite rev_involutive. Qed.

Lemma emitted_unchanged {A : Type} (m : M A) (ed : Editor) :
  exec m ed = ed → emitted m ed = [].
Proof. intros H. apply emitted_of_log. by rewrite H. Qed.

(** The part of the log [l] that was put in front of [base]. *)
Ltac log_prefix l base :=
  lazymatch l with
  | base => constr:(@nil Event)
  | ?e :: ?l' => let r := log_prefix l' base in constr:(e :: r)
  end.

(** Unfolds the monad and the calls every handler is made of. *)
Ltac run :=
  unfold exec, eval;
  repeat (progress (
    unfold mbind, M_bind, mret, M_ret, gets, modify, emit, skip, toast,
      updateToast, projectDidChange, openModal, toggleBrushModes,
      showWaitOverlay, hideWaitOverlay, resetEditorForLoad, setState,
      console_error, console_log, saveAs, on_project, set_project,
      call_project, project_name, getActiveTool, getToolSetting;
    cbn)).

(** Runs the computation under the first [emitted] of the goal, after the
    unfolding [unf] of its handler, and replaces it by the events found. *)
Ltac read_emitted unf :=
  lazymatch goal with
  | |- context [emitted ?m ?ed] =>
      let H := fresh "Hlog" in
      eassert (log (exec m ed) = _) as H by (unf; run; reflexivity);
      lazymatch type of H with
      | _ = ?l =>
          let newest := log_prefix l (log ed) in
          rewrite (emitted_of_newest m ed newest H)
      end;
      clear H; cbn [rev app]
  end.

(** ** Selection attributes *)

(** C1: for every attribute name, [getSelectionAttribute] collapses an
    array-valued selection attribute to its first element: [undefined] for
    the empty array, the sole element of an array of length 1, the first
    element of an array of two or more elements; an attribute that is not an
    array is returned unchanged.  The call changes nothing. *)
Theorem getSelectionAttribute_first_wins (attributeName : string) (ed : Editor) :
  let attribute := get_prop (selection (project ed)) attributeName in
  let result := eval (getSelectionAttribute attributeName) ed in
  exec (getSelectionAttribute attributeName) ed = ed ∧
  (∀ r, attribute = VArr r [] → result = VUndefined) ∧
  (∀ r x, attribute = VArr r [x] → result = x) ∧
  (∀ r x y rest, attribute = VArr r (x :: y :: rest) → result = x) ∧
  ((∀ r elems, attribute ≠ VArr r elems) → result = attribute).
Proof.
  intros attribute result. subst result.
  unfold getSelectionAttribute. run. fold attribute.
  split; [|split; [|split; [|split]]].
  - destruct attribute as [| | | | | |r [|x [|y rest]]]; reflexivity.
  - by intros r ->.
  - by intros r x ->.
  - by intros r x y rest ->.
  - intros Hna. destruct attribute as [| | | | | |r elems]; try reflexivity.
    by destruct (Hna r elems).
Qed.

Lemma getSelectionAttribute_first_wins_witness :
  eval (getSelectionAttribute "fontFamily") Demo.editor0 = VUndefined ∧
  eval (getSelectionAttribute "strokeWidth") Demo.editor0 = VNum 3 ∧
  eval (getSelectionAttribute "fillColor") Demo.editor0 = VStr "#ff0000" ∧
  eval (getSelectionAttribute "selectionType") Demo.editor0 = VStr "path".
Proof.
  destruct (getSelectionAttribute_first_wins "fontFamily" Demo.editor0)
    as (_ & H0 & _).
  destruct (getSelectionAttribute_first_wins "strokeWidth" Demo.editor0)
    as (_ & _ & H1 & _).
  destruct (getSelectionAttribute_first_wins "fillColor" Demo.editor0)
    as (_ & _ & _ & H2 & _).
  destruct (getSelectionAttribute_first_wins "selectionType" Demo.editor0)
    as (_ & _ & _ & _ & H3).
  split; [exact (H0 3%positive eq_refl)|].
  split; [exact (H1 2%positive (VNum 3) eq_refl)|].
  split; [exact (H2 1%positive (VStr "#ff0000") (VStr "#00ff00") [] eq_refl)|].
  rewrite H3; [reflexivity|]. intros r elems. vm_compute. discriminate.
Defined.

(** ** Tools *)

(** C10: [setActiveTool] does nothing when the requested tool is the active
    one: the whole component is unchanged and nothing is emitted.  Otherwise
    [lastUsedTool] is the tool that was active, the project is the one the
    engine's setter gives for [newTool], the brush modes popup is closed and
    exactly one change notification is made. *)
Theorem setActiveTool_noop_or_switch
    (engine : Engine) (newTool : string) (ed : Editor) :
  let ed' := exec (setActiveTool engine newTool) ed in
  let events := emitted (setActiveTool engine newTool) ed in
  (newTool = tool_name (activeTool (project ed)) → ed' = ed ∧ events = []) ∧
  (newTool ≠ tool_name (activeTool (project ed)) →
     lastUsedTool ed' = Some (activeTool (project ed)) ∧
     project ed' = set_activeTool engine newTool (project ed) ∧
     events = [ToggleBrushModes false;
               ProjectDidChange (action ("Set Active Tool: " ++ newTool))] ∧
     length (filter is_change events) = 1).
Proof.
  intros ed' events. subst ed' events. split; intros Hn.
  - assert (exec (setActiveTool engine newTool) ed = ed) as Hed.
    { unfold setActiveTool. run.
      rewrite bool_decide_eq_false_2 by (by intros []). reflexivity. }
    split; [exact Hed | by apply emitted_unchanged].
  - assert (emitted (setActiveTool engine newTool) ed =
            [ToggleBrushModes false;
             ProjectDidChange (action ("Set Active Tool: " ++ newTool))]) as Hev.
    { apply emitted_of_log. unfold setActiveTool. run.
      rewrite bool_decide_eq_true_2 by done. reflexivity. }
    rewrite Hev. unfold setActiveTool. run.
    rewrite bool_decide_eq_true_2 by done. cbn. done.
Qed.

Lemma setActiveTool_noop_or_switch_witness :
  exec (setActiveTool Demo.engine0 "cursor") Demo.editor0 = Demo.editor0 ∧
  lastUsedTool (exec (setActiveTool Demo.engine0 "brush") Demo.editor0)
    = Some {| tool_name := "cursor" |} ∧
  length (filter is_change
            (emitted (setActiveTool Demo.engine0 "brush") Demo.editor0)) = 1.
Proof.
  destruct (setActiveTool_noop_or_switch Demo.engine0 "cursor" Demo.editor0)
    as [Hsame _].
  destruct (setActiveTool_noop_or_switch Demo.engine0 "brush" Demo.editor0)
    as [_ Hother].
  split; [exact (proj1 (Hsame eq_refl))|].
  assert ("brush" ≠ tool_name (activeTool (project Demo.editor0))) as Hne
    by (vm_compute; discriminate).
  destruct (Hother Hne) as (Hlast & _ & _ & Hone).
  split; [exact Hlast | exact Hone].
Defined.

(** With an engine whose setter makes the named tool the active one, asking
    for the same tool a second time changes nothing. *)
Section LawfulToolSetter.

Context (engine : Engine).

Hypothesis set_activeTool_name :
  ∀ name p, tool_name (activeTool (set_activeTool engine name p)) = name.

Lemma setActiveTool_active (newTool : string) (ed : Editor) :
  tool_name (activeTool (project (exec (setActiveTool engine newTool) ed)))
    = newTool.
Proof.
  unfold setActiveTool. run. case_bool_decide as Hne; cbn.
  - apply set_activeTool_name.
  - destruct (decide (newTool = tool_name (activeTool (project ed)))); [done|].
    by destruct Hne.
Qed.

Lemma setActiveTool_twice (newTool : string) (ed : Editor) :
  let ed' := exec (setActiveTool engine newTool) ed in
  exec (setActiveTool engine newTool) ed' = ed'.
Proof.
  intros ed'. pose proof (setActiveTool_active newTool ed) as Hactive.
  fold ed' in Hactive. unfold setActiveTool at 1. run. fold ed'.
  rewrite Hactive. by rewrite bool_decide_eq_false_2 by (by intros []).
Qed.

End LawfulToolSetter.

(** C9: [changeBrushSize] changes at most one tool setting.  With a tool
    that is neither the brush nor the eraser the component is unchanged and
    nothing is emitted.  With the brush (the eraser) the only call to the
    engine sets [brushSize] ([eraserSize]) to its previous value [+ amt], and
    the rest of the component is as before. *)
Theorem changeBrushSize_one_setting
    (engine : Engine) (amt : JsVal) (ed : Editor) :
  let tool := tool_name (activeTool (project ed)) in
  let ed' := exec (changeBrushSize engine amt) ed in
  let events := emitted (changeBrushSize engine amt) ed in
  let size option := js_add (getSetting engine option (project ed)) amt in
  let resized option :=
    project ed' = setSetting engine option (size option) (project ed) ∧
    lastUsedTool ed' = lastUsedTool ed ∧
    _onEyedropperPickedColor ed' = _onEyedropperPickedColor ed ∧
    events = [ProjectDidChange
                (action ("Change Tool Setting " ++ option ++ ":"
                           ++ to_string (size option)))] in
  (tool ≠ "brush" → tool ≠ "eraser" → ed' = ed ∧ events = []) ∧
  (tool = "brush" → resized "brushSize") ∧
  (tool = "eraser" → resized "eraserSize").
Proof.
  intros tool ed' events size resized. subst ed' events size resized.
  split; [|split].
  - intros Hb He.
    assert (exec (changeBrushSize engine amt) ed = ed) as Hed.
    { unfold changeBrushSize. run. fold tool.
      by rewrite !bool_decide_eq_false_2 by done. }
    split; [exact Hed | by apply emitted_unchanged].
  - intros Hb. cbn beta. split; [|split; [|split]];
      try apply emitted_of_log; unfold changeBrushSize, setToolSetting;
      run; fold tool; rewrite Hb; reflexivity.
  - intros He. cbn beta. split; [|split; [|split]];
      try apply emitted_of_log; unfold changeBrushSize, setToolSetting;
      run; fold tool; rewrite He; reflexivity.
Qed.

Lemma changeBrushSize_one_setting_witness :
  let small :=
    with_project (setSetting Demo.engine0 "brushSize" (VNum 1)
                    (project Demo.brush_editor)) Demo.brush_editor in
  exec (changeBrushSize Demo.engine0 (VNum 2)) Demo.editor0 = Demo.editor0 ∧
  toolSettings (project (exec (changeBrushSize Demo.engine0 (VNum 2))
                              Demo.brush_editor))
    = <["brushSize" := VNum 12]> (toolSettings Demo.project0) ∧
  getSetting Demo.engine0 "brushSize"
    (project (exec (changeBrushSize Demo.engine0 (VNum 0x1p53)) small))
    = VNum 0x1p53 ∧
  emitted (changeBrushSize Demo.engine0 (VNum 0x1p53)) small
    = [ProjectDidChange
         (action "Change Tool Setting brushSize:9007199254740992")] ∧
  emitted (changeBrushSize Demo.engine0 (VNum 0.5)) small
    = [ProjectDidChange (action "Change Tool Setting brushSize:1.5")].
Proof.
  intros small.
  destruct (changeBrushSize_one_setting Demo.engine0 (VNum 2) Demo.editor0)
    as (Hother & _ & _).
  destruct (changeBrushSize_one_setting Demo.engine0 (VNum 2) Demo.brush_editor)
    as (_ & Hbrush & _).
  destruct (changeBrushSize_one_setting Demo.engine0 (VNum 0x1p53) small)
    as (_ & Hlarge & _).
  destruct (changeBrushSize_one_setting Demo.engine0 (VNum 0.5) small)
    as (_ & Hhalf & _).
  destruct (Hlarge eq_refl) as (Hproject & _ & _ & Hevents).
  destruct (Hhalf eq_refl) as (_ & _ & _ & Hevents').
  split; [|split; [|split; [|split]]].
  - apply Hother; vm_compute; discriminate.
  - rewrite (proj1 (Hbrush eq_refl)). reflexivity.
  - rewrite Hproject. vm_compute. reflexivity.
  - rewrite Hevents. vm_compute. reflexivity.
  - rewrite Hevents'. vm_compute. reflexivity.
Defined.

(** With an engine whose tool settings behave as a store, the brush case
    reads back as the claim puts it: the size is the old one [+ amt], and
    every other setting reads as before. *)
Section LawfulToolSettings.

Context (engine : Engine).

Hypothesis getSetting_set :
  ∀ name value p, getSetting engine name (setSetting engine name value p) = value.
Hypothesis getSetting_other :
  ∀ name other value p,
    name ≠ other →
    getSetting engine other (setSetting engine name value p)
      = getSetting engine other p.



End LawfulToolSettings.

(** ** Undo and redo *)

(** C3: [undoAction] and [redoAction] turn a failure into a toast.  When
    [project.undo()] ([project.redo()]) answers false, the handler shows the
    warning toast [Nothing to undo.] ([Nothing to redo.]) and nothing else;
    when it answers true, the handler shows no toast and makes exactly one
    change notification, with [skipHistory] set.  Either way the project is
    the one the engine left. *)
Theorem undo_redo_toast_or_notify (engine : Engine) (ed : Editor) :
  let undone := project_undo engine (project ed) in
  let redone := project_redo engine (project ed) in
  project (exec (undoAction engine) ed) = undone.2 ∧
  project (exec (redoAction engine) ed) = redone.2 ∧
  (undone.1 = false →
     emitted (undoAction engine) ed = [Toast "Nothing to undo." "warning" false]) ∧
  (undone.1 = true →
     emitted (undoAction engine) ed
       = [ProjectDidChange {| skipHistory := true; actionName := "Undo" |}]) ∧
  (redone.1 = false →
     emitted (redoAction engine) ed = [Toast "Nothing to redo." "warning" false]) ∧
  (redone.1 = true →
     emitted (redoAction engine) ed
       = [ProjectDidChange {| skipHistory := true; actionName := "Redo" |}]).
Proof.
  intros undone redone.
  repeat split; try intros Hb; try apply emitted_of_log;
    unfold undoAction, redoAction; run;
    fold undone; fold redone;
    destruct undone as [b p]; destruct redone as [b' p'];
    simpl in *; subst; try (destruct b); try (destruct b'); reflexivity.
Qed.

Lemma undo_redo_toast_or_notify_witness :
  emitted (undoAction Demo.engine0) Demo.editor0
    = [Toast "Nothing to undo." "warning" false] ∧
  emitted (redoAction Demo.engine0) Demo.editor0
    = [ProjectDidChange {| skipHistory := true; actionName := "Redo" |}].
Proof.
  destruct (undo_redo_toast_or_notify Demo.engine0 Demo.editor0)
    as (_ & _ & Hu & _ & _ & Hr).
  split; [exact (Hu eq_refl) | exact (Hr eq_refl)].
Defined.

(** ** Project settings *)

Lemma validKeys_names : validKeys = VStr <$> valid_names.
Proof. reflexivity. Qed.

Lemma indexOf_validKeys (key : string) :
  indexOf validKeys (VStr key) = (-1)%Z ↔ key ∉ valid_names.
Proof.
  rewrite validKeys_names, indexOf_strings. split.
  - intros H Hk. apply H. by apply list_elem_of_fmap_2.
  - intros H [s [[= ->] Hs]]%list_elem_of_fmap. by apply H.
Qed.

Lemma get_prop_insert (m : gmap string JsVal) (k key : string) (v : JsVal) :
  get_prop (<[k := v]> m) key = if bool_decide (k = key) then v else get_prop m key.
Proof.
  unfold get_prop. case_bool_decide as E.
  - subst. by rewrite lookup_insert_eq.
  - by rewrite lookup_insert_ne.
Qed.

(** One round of the [forEach]: the key is written when it is valid and its
    new value differs, and only then. *)
Lemma updateProjectSettings_key_spec
    (newSettings : JsObject) (updated : bool) (key : string) (ed : Editor) :
  updateProjectSettings_key newSettings updated key ed =
    if writes newSettings (project ed) key then
      (true,
       with_project
         (with_props (<[key := Object_get newSettings key]> (props (project ed)))
                     (project ed)) ed)
    else (updated, ed).
Proof.
  unfold updateProjectSettings_key, writes. run.
  destruct (decide (key ∈ valid_names)) as [Hin|Hout].
  - rewrite (bool_decide_eq_false_2 (indexOf _ _ = _))
      by (by rewrite indexOf_validKeys; intros []).
    rewrite (bool_decide_eq_true_2 (key ∈ valid_names)) by done. cbn.
    by destruct (strict_ne _ _).
  - rewrite (bool_decide_eq_true_2 (indexOf _ _ = _))
      by (by rewrite indexOf_validKeys).
    by rewrite (bool_decide_eq_false_2 (key ∈ valid_names)) by done.
Qed.

(** The loop over a list of keys: only [props] changes, a key holds its new
    value when the loop met it and had to write it, and otherwise what it
    held; [updated] tells whether some key was written. *)
Lemma updateProjectSettings_loop
    (newSettings : JsObject) (keys : list string) (updated : bool) (ed : Editor) :
  ∃ m : gmap string JsVal,
    forEach (updateProjectSettings_key newSettings) updated keys ed =
      (updated || existsb (writes newSettings (project ed)) keys,
       with_project (with_props m (project ed)) ed) ∧
    ∀ key, m !! key =
      if bool_decide (key ∈ keys) && writes newSettings (project ed) key
      then Some (Object_get newSettings key)
      else props (project ed) !! key.
Proof.
  revert updated ed. induction keys as [|k keys IH]; intros updated ed.
  - exists (props (project ed)). split.
    + cbn. rewrite orb_false_r. by destruct ed as [[] ? ? ?].
    + intros key. by rewrite bool_decide_eq_false_2 by apply not_elem_of_nil.
  - cbn [forEach]. unfold mbind, M_bind.
    rewrite updateProjectSettings_key_spec.
    destruct (writes newSettings (project ed) k) eqn:Hw.
    + set (ed1 := with_project _ ed).
      destruct (IH true ed1) as (m & -> & Hm). exists m. split.
      * cbn. by rewrite Hw, orb_true_r.
      * intros key. rewrite Hm. subst ed1. cbn.
        destruct (decide (key = k)) as [->|Hne].
        -- rewrite (bool_decide_eq_true_2 (k ∈ k :: keys)) by apply list_elem_of_here.
           rewrite Hw. cbn. rewrite lookup_insert_eq.
           by destruct (_ && _).
        -- unfold writes. cbn. rewrite get_prop_insert.
           rewrite (bool_decide_eq_false_2 (k = key)) by done.
           rewrite lookup_insert_ne by done.
           rewrite (bool_decide_ext (key ∈ k :: keys) (key ∈ keys)); [done|].
           rewrite elem_of_cons. split; [by intros [?|?] | by right].
    + destruct (IH updated ed) as (m & -> & Hm). exists m. split.
      * cbn. by rewrite Hw.
      * intros key. rewrite Hm.
        destruct (decide (key = k)) as [->|Hne].
        -- rewrite Hw, !andb_false_r. done.
        -- rewrite (bool_decide_ext (key ∈ k :: keys) (key ∈ keys)); [done|].
           rewrite elem_of_cons. split; [by intros [?|?] | by right].
Qed.

Lemma existsb_writes (newSettings : JsObject) (p : Project) :
  existsb (writes newSettings p) (Object_keys newSettings) = true ↔
  ∃ key, differs newSettings p key = true.
Proof.
  rewrite existsb_exists. unfold differs. split.
  - intros (key & Hin%list_elem_of_In & Hw). exists key.
    by rewrite bool_decide_eq_true_2.
  - intros (key & [Hin%bool_decide_eq_true Hw]%andb_true_iff).
    exists key. by rewrite <- list_elem_of_In.
Qed.

(** The whole handler: what [props] holds afterwards, and the one event it
    may emit. *)
Lemma updateProjectSettings_run (newSettings : JsObject) (ed : Editor) :
  let p := project ed in
  let notify := existsb (writes newSettings p) (Object_keys newSettings) in
  ∃ m : gmap string JsVal,
    exec (updateProjectSettings newSettings) ed =
      with_log
        (if notify
         then ProjectDidChange (action "Update Project Settings") :: log ed
         else log ed)
        (with_project (with_props m p) ed) ∧
    ∀ key, m !! key =
      if differs newSettings p key then Some (Object_get newSettings key)
      else props p !! key.
Proof.
  intros p notify.
  destruct (updateProjectSettings_loop newSettings (Object_keys newSettings)
              false ed) as (m & Hrun & Hm).
  fold p in Hrun, Hm. cbn [orb] in Hrun. fold notify in Hrun.
  exists m. split; [|exact Hm].
  unfold updateProjectSettings. run. rewrite Hrun. by destruct notify.
Qed.



(** A number that is not NaN is equal to itself. *)
Lemma float_eqb_refl (x : float) : x ≠ nan → PrimFloat.eqb x x = true.
Proof.
  intros Hx. rewrite FloatAxioms.eqb_spec.
  destruct (FloatOps.Prim2SF x) as [s|s| |s m e] eqn:Hsf;
    unfold SpecFloat.SFeqb; cbn.
  - done.
  - by destruct s.
  - destruct Hx. rewrite <- (FloatAxioms.SF2Prim_Prim2SF x), Hsf. reflexivity.
  - rewrite Z.compare_refl, Pos.compare_cont_refl. by destruct s.
Qed.

(** Values that are [===] to themselves: every value but NaN. *)
Lemma strict_eq_refl (v : JsVal) : v ≠ VNaN → strict_eq v v = true.
Proof.
  destruct v; simpl; try done; intros Hv; try by apply bool_decide_eq_true.
  apply float_eqb_refl. intros ->. by destruct Hv.
Qed.

(** Once the settings are in the project, nothing is left to change: a
    second call with the same settings writes nothing and notifies nobody. *)
Lemma updateProjectSettings_again (newSettings : JsObject) (ed : Editor) :
  (∀ key, Object_get newSettings key ≠ VNaN) →
  let ed' := exec (updateProjectSettings newSettings) ed in
  exec (updateProjectSettings newSettings) ed' = ed' ∧
  emitted (updateProjectSettings newSettings) ed' = [].
Proof.
  intros Hnan ed'.
  destruct (updateProjectSettings_run newSettings ed) as (m & Hrun & Hm).
  fold ed' in Hrun.
  assert (∀ key, differs newSettings (project ed') key = false) as Hnone.
  { intros key. rewrite Hrun. cbn. unfold differs, writes, get_prop. cbn.
    rewrite Hm. destruct (differs newSettings (project ed) key) eqn:Hd; cbn.
    - unfold strict_ne. rewrite strict_eq_refl by apply Hnan.
      by rewrite !andb_false_r.
    - exact Hd. }
  assert (existsb (writes newSettings (project ed')) (Object_keys newSettings)
          = false) as Hquiet.
  { destruct (existsb (writes newSettings (project ed')) _) eqn:Hex; [|done].
    apply existsb_writes in Hex as [key Hkey]. by rewrite Hnone in Hkey. }
  assert (exec (updateProjectSettings newSettings) ed' = ed') as Hsame.
  { destruct (updateProjectSettings_run newSettings ed') as (m' & Hrun' & Hm').
    rewrite Hrun', Hquiet.
    assert (m' = props (project ed')) as ->.
    { apply map_eq. intros key. by rewrite Hm', Hnone. }
    by destruct ed' as [[] ? ? ?]. }
  split; [exact Hsame | by apply emitted_unchanged].
Qed.

(** ** Assets *)



(** ** Imports *)

(** C7: a failed import ends in a message.  When the engine hands no project
    to the callback of [importProjectAsWickFile], the callback shows the
    error toast [Could not open project.] and hides the wait overlay, and
    that is all it does.  When the engine hands [null] to the callback of
    [importFileAsAsset], the callback (after the caller's own callback, if
    one was given) shows the error toast [Could not add files to project: ]
    with the file name, and that is all it does: no change notification, no
    second call to a helper. *)
Theorem import_failures_are_toasts
    (engine : Engine) (file : JsFile) (started ed : Editor) :
  let loaded := eval (importProjectAsWickFile engine file) started in
  let imported callback := eval (importFileAsAsset file callback) started in
  let could_not_add :=
    Toast ("Could not add files to project: " ++ file_name file) "error" false in
  emitted (loaded None) ed
    = [Toast "Could not open project." "error" false; HideWaitOverlay] ∧
  exec (loaded None) ed = with_log (log (exec (loaded None) ed)) ed ∧
  emitted (imported None VNull) ed = [could_not_add] ∧
  exec (imported None VNull) ed = with_log (could_not_add :: log ed) ed ∧
  (∀ callback,
     exec (imported (Some callback) VNull) ed
       = with_log (could_not_add :: log (exec (callback VNull) ed))
                  (exec (callback VNull) ed)).
Proof.
  intros loaded imported could_not_add.
  subst loaded imported could_not_add.
  repeat split; try intros callback; try apply emitted_of_log;
    unfold importProjectAsWickFile, importProjectAsWickFile_loaded,
      importFileAsAsset, importFileAsAsset_imported; run; try reflexivity.
  by destruct (callback VNull ed).
Qed.

(** ** Opening a project from the URL *)

Lemma indexOf_whitelist (host : JsVal) :
  indexOf whitelist host = (-1)%Z ↔ host ∉ whitelist.
Proof. exact (indexOf_strings whitelisted_hosts host). Qed.

(** The three ways through [tryToParseProjectURL]. *)
Lemma tryToParseProjectURL_run (browser : Browser) (ed : Editor) :
  let urlParam := location_project browser in
  let url := urlParse browser urlParam in
  let host := hostname browser url in
  (eval (tryToParseProjectURL browser) ed,
   emitted (tryToParseProjectURL browser) ed) =
    if negb (truthy urlParam) then (false, [])
    else if bool_decide (indexOf whitelist host = (-1)%Z) then
      (false,
       [Toast ("Could not open project from link! "
                 ++ String (Ascii.ascii_of_nat 10) " URL is not on whitelist.")
              "warning" false;
        ConsoleError [VStr "tryToParseProjectURL: URL is not in the whitelist."]])
    else (true, [Fetch url]).
Proof.
  intros urlParam url host.
  destruct (truthy urlParam) eqn:Ht; cbn [negb];
    [destruct (bool_decide (indexOf whitelist host = (-1)%Z)) eqn:Hi|];
    f_equal; try apply emitted_of_log; unfold tryToParseProjectURL; run;
    fold urlParam; rewrite Ht; cbn; try (fold url; fold host; rewrite Hi);
    reflexivity.
Qed.

(** C8: [tryToParseProjectURL] fetches only from a host on the whitelist.
    Without a [project] parameter it answers false and does nothing.  With a
    parameter whose parsed hostname is not one of [wickeditor.com],
    [editor.wickeditor.com], [test.wickeditor.com], [aka.ms] it answers
    false, shows a warning toast and fetches nothing.  It answers true
    exactly when there is a parameter and its hostname is on the whitelist,
    and then it fetches the parsed URL. *)
Theorem tryToParseProjectURL_whitelist (browser : Browser) (ed : Editor) :
  let urlParam := location_project browser in
  let url := urlParse browser urlParam in
  let host := hostname browser url in
  let result := eval (tryToParseProjectURL browser) ed in
  let events := emitted (tryToParseProjectURL browser) ed in
  (truthy urlParam = false → result = false ∧ events = []) ∧
  (truthy urlParam = true → host ∉ whitelist →
     result = false ∧
     events =
       [Toast ("Could not open project from link! "
                 ++ String (Ascii.ascii_of_nat 10) " URL is not on whitelist.")
              "warning" false;
        ConsoleError [VStr "tryToParseProjectURL: URL is not in the whitelist."]]) ∧
  (truthy urlParam = true → host ∈ whitelist →
     result = true ∧ events = [Fetch url]) ∧
  (result = true ↔ truthy urlParam = true ∧ host ∈ whitelist) ∧
  (result = false → ∀ u, Fetch u ∉ events).
Proof.
  intros urlParam url host result events.
  pose proof (tryToParseProjectURL_run browser ed) as Hrun. cbn zeta in Hrun.
  fold urlParam url host result events in Hrun.
  destruct (truthy urlParam) eqn:Ht; cbn [negb] in Hrun.
  - case_bool_decide as Hi; injection Hrun as -> ->.
    + assert (host ∉ whitelist) as Hout by by apply indexOf_whitelist.
      repeat split; try done.
      * by intros [_ ?].
      * intros _ u Hu.
        repeat (apply elem_of_cons in Hu as [Hu|Hu]; [discriminate|]).
        by apply not_elem_of_nil in Hu.
    + assert (host ∈ whitelist) as Hin
        by exact (indexOf_strings_found whitelisted_hosts host Hi).
      repeat split; try done.
  - injection Hrun as -> ->. repeat split; try done.
    + by intros [? _].
    + intros _ u Hu. by apply not_elem_of_nil in Hu.
Qed.

Lemma tryToParseProjectURL_whitelist_witness :
  let link := VStr "https://editor.wickeditor.com/projects/demo.wick" in
  eval (tryToParseProjectURL (Demo.browser0 VUndefined "")) Demo.editor0 = false ∧
  eval (tryToParseProjectURL (Demo.browser0 link "example.com")) Demo.editor0
    = false ∧
  emitted (tryToParseProjectURL (Demo.browser0 link "editor.wickeditor.com"))
          Demo.editor0
    = [Fetch (VObj 21 "https://editor.wickeditor.com/projects/demo.wick")].
Proof.
  intros link.
  destruct (tryToParseProjectURL_whitelist (Demo.browser0 VUndefined "")
              Demo.editor0) as (Hnone & _).
  destruct (tryToParseProjectURL_whitelist (Demo.browser0 link "example.com")
              Demo.editor0) as (_ & Hout & _).
  destruct (tryToParseProjectURL_whitelist
              (Demo.browser0 link "editor.wickeditor.com") Demo.editor0)
    as (_ & _ & Hin & _).
  split; [exact (proj1 (Hnone eq_refl))|].
  split.
  - refine (proj1 (Hout eq_refl _)). cbn. unfold whitelist. intros H.
    repeat (apply elem_of_cons in H as [H|H]; [discriminate H|]).
    by apply not_elem_of_nil in H.
  - refine (proj2 (Hin eq_refl _)). cbn. unfold whitelist.
    apply list_elem_of_further, list_elem_of_here.
Defined.

(** ** Exports *)

Lemma string_app_assoc (a b c : string) : (a ++ b) ++ c = a ++ (b ++ c).
Proof.
  induction a as [|x a IH]; [done|].
  change (String x ((a ++ b) ++ c) = String x (a ++ (b ++ c))). by f_equal.
Qed.

Lemma has_export_extension_add (v : JsVal) (ext : string) :
  ext ∈ export_extensions → has_export_extension (js_add v (VStr ext)).
Proof.
  intros Hext. rewrite js_add_VStr_r. exists (to_string v ++ ext), ext.
  split; [done|]. split; [done|]. apply ends_with_app.
Qed.

Lemma has_export_extension_add_infix (v : JsVal) (infix ext : string) :
  ext ∈ export_extensions → has_export_extension (js_add v (VStr (infix ++ ext))).
Proof.
  intros Hext. rewrite js_add_VStr_r. exists (to_string v ++ infix ++ ext), ext.
  split; [done|]. split; [done|].
  rewrite <- string_app_assoc. apply ends_with_app.
Qed.

Lemma export_extension_elem (ext : string) :
  bool_decide (ext ∈ export_extensions) = true → ext ∈ export_extensions.
Proof. apply bool_decide_eq_true. Qed.

(** Goes through an explicit list of events looking for a [saveAs]. *)
Ltac check_saves :=
  let data := fresh "data" in
  let filename := fresh "filename" in
  let Hin := fresh "Hin" in
  unfold saves_with_export_extension; intros data filename Hin;
  repeat (apply elem_of_cons in Hin as [Hin|Hin];
          [try discriminate Hin; injection Hin as -> -> |]);
  try (by apply not_elem_of_nil in Hin);
  first
    [ apply has_export_extension_add; by apply export_extension_elem
    | apply (has_export_extension_add_infix _ "_imageSequence" ".zip");
      by apply export_extension_elem
    | exists "audiotrack.wav", ".wav";
      split; [reflexivity | split; [by apply export_extension_elem | reflexivity]] ].

(** C6: every [saveAs] an export handler or one of its callbacks makes saves
    under a file name that ends in one of [.wick], [.gif], [.mp4], [.svg],
    [.zip], [.html], [.wav], [.wickobj], whatever the project is called and
    whatever the helper hands back. *)
Theorem every_saved_file_has_export_extension
    (engine : Engine) (browser : Browser) (h : ExportHandler)
    (args : ExportArgs) (ed later : Editor) :
  let callbacks := eval (export_handler engine browser h args) ed in
  saves_with_export_extension (emitted (export_handler engine browser h args) ed) ∧
  (∀ result,
     saves_with_export_extension (emitted (onFinish callbacks result) later)) ∧
  (∀ message,
     saves_with_export_extension (emitted (onError callbacks message) later)) ∧
  (∀ a b,
     saves_with_export_extension (emitted (onProgress callbacks a b) later)).
Proof.
  intros callbacks. subst callbacks.
  destruct h.
  - (* exportProjectToNewWindow *)
    split; [|split; [intros result; destruct (truthy result) eqn:Hw
                    |split; [intros message|intros a b]]];
      read_emitted ltac:(unfold export_handler, exportProjectToNewWindow,
                           exportProjectToNewWindow_opened, only_onFinish;
                         run; try rewrite Hw);
      check_saves.
  - (* exportProjectAsWickFile *)
    split; [|split; [intros result; destruct (strict_eq result VUndefined) eqn:Hw
                    |split; [intros message|intros a b]]];
      read_emitted ltac:(unfold export_handler, exportProjectAsWickFile,
                           exportProjectAsWickFile_written, only_onFinish;
                         run; try rewrite Hw);
      check_saves.
  - (* exportProjectAsAnimatedGIF *)
    split; [|split; [intros result|split; [intros message|intros a b]]];
      read_emitted ltac:(unfold export_handler, exportProjectAsAnimatedGIF,
                           exportProjectAsAnimatedGIF_onFinish);
      check_saves.
  - (* exportProjectAsImageSequence *)
    split; [|split; [intros result|split; [intros message|intros a b]]];
      read_emitted ltac:(unfold export_handler, exportProjectAsImageSequence,
                           exportProjectAsImageSequence_onFinish);
      check_saves.
  - (* exportProjectAsVideo *)
    split; [|split; [intros result|split; [intros message|intros a b]]];
      read_emitted ltac:(unfold export_handler, exportProjectAsVideo,
                           exportProjectAsVideo_onFinish);
      check_saves.
  - (* exportProjectAsImageSVG *)
    split; [|split; [intros result|split; [intros message|intros a b]]];
      read_emitted ltac:(unfold export_handler, exportProjectAsImageSVG,
                           exportProjectAsImageSVG_onFinish);
      check_saves.
  - (* exportProjectAsStandaloneZip *)
    split; [|split; [intros result|split; [intros message|intros a b]]];
      read_emitted ltac:(unfold export_handler, exportProjectAsStandaloneZip,
                           exportProjectAsStandaloneZip_bundled, only_onFinish);
      check_saves.
  - (* exportProjectAsStandaloneHTML *)
    split; [|split; [intros result|split; [intros message|intros a b]]];
      read_emitted ltac:(unfold export_handler, exportProjectAsStandaloneHTML,
                           exportProjectAsStandaloneHTML_bundled, only_onFinish);
      check_saves.
  - (* exportProjectAsAudioTrack *)
    split; [|split; [intros result|split; [intros message|intros a b]]];
      read_emitted ltac:(unfold export_handler, exportProjectAsAudioTrack,
                           exportProjectAsAudioTrack_then, only_onFinish);
      check_saves.
  - (* exportSelectedClip *)
    destruct (truthy (getSelectedObject engine (project ed))) eqn:Hclip;
      [destruct (instanceOf engine (getSelectedObject engine (project ed)) Clip)
         eqn:Hinst|];
      (split; [|split; [intros result|split; [intros message|intros a b]]]);
      read_emitted ltac:(unfold export_handler, exportSelectedClip,
                           exportSelectedClip_written, only_onFinish,
                           no_callbacks;
                         run; rewrite Hclip; cbn; try rewrite Hinst);
      check_saves.
Qed.

(** The names the demo project is saved under. *)
Example exportProjectAsAnimatedGIF_saves_gif :
  let browser := Demo.browser0 VUndefined EmptyString in
  let callbacks :=
    eval (exportProjectAsAnimatedGIF Demo.args0) Demo.editor0 in
  emitted (onFinish callbacks (VObj 31 "[object Blob]")) Demo.editor0
    = [SaveAs (PFile (VObj 31 "[object Blob]")) (VStr "My Project.gif");
       UpdateToast 0 "success" "Successfully created .gif file.";
       SetState [("renderStatusMessage", VStr "Finished exporting GIF.");
                 ("renderProgress", VNum 100)]].
Proof. reflexivity. Qed.

Example exportProjectAsWickFile_saves_wick :
  let browser := Demo.browser0 VUndefined EmptyString in
  let callbacks := eval (exportProjectAsWickFile browser) Demo.editor0 in
  emitted (onFinish callbacks (VObj 32 "[object File]")) Demo.editor0
    = [UpdateToast 0 "success" "Successfully saved .wick file.";
       SaveAs (PFile (VObj 32 "[object File]"))
              (VStr "My Project_1-1-2020_12-00-00.wick");
       HideWaitOverlay].
Proof. reflexivity. Qed.

(** The video handler leaves the saving to its helper: neither it nor its
    callbacks call [saveAs]. *)
Lemma exportProjectAsVideo_saves_nothing
    (args : ExportArgs) (ed later : Editor) (result a b : JsVal)
    (data : Payload) (filename : JsVal) :
  let callbacks := eval (exportProjectAsVideo args) ed in
  (SaveAs data filename ∉ emitted (exportProjectAsVideo args) ed) ∧
  (SaveAs data filename ∉ emitted (onFinish callbacks result) later) ∧
  (SaveAs data filename ∉ emitted (onError callbacks result) later) ∧
  (SaveAs data filename ∉ emitted (onProgress callbacks a b) later).
Proof.
  intros callbacks. subst callbacks.
  repeat split;
    read_emitted ltac:(unfold exportProjectAsVideo, exportProjectAsVideo_onFinish);
    intros Hin;
    repeat (apply elem_of_cons in Hin as [Hin|Hin]; [discriminate Hin|]);
    by apply not_elem_of_nil in Hin.
Qed.

(** Membership in an explicit list of events or handlers. *)
Ltac find_elem :=
  repeat first [apply list_elem_of_here | apply list_elem_of_further].

Ltac no_elem H :=
  repeat (apply elem_of_cons in H as [H|H]; [discriminate H|]);
  by apply not_elem_of_nil in H.

(** Of the ten export handlers, the four of [modal_exports] open a modal and
    the other six do not. *)
Lemma opens_modal_iff
    (engine : Engine) (browser : Browser) (h : ExportHandler)
    (args : ExportArgs) (ed : Editor) :
  opens_modal engine browser h args ed ↔ h ∈ modal_exports.
Proof.
  unfold opens_modal, modal_exports.
  destruct h;
    try (destruct (truthy (getSelectedObject engine (project ed))) eqn:Hclip;
         [destruct (instanceOf engine (getSelectedObject engine (project ed)) Clip)
            eqn:Hinst|]);
    read_emitted ltac:(unfold export_handler, exportProjectToNewWindow,
                         exportProjectAsWickFile, exportProjectAsAnimatedGIF,
                         exportProjectAsImageSequence, exportProjectAsVideo,
                         exportProjectAsImageSVG, exportProjectAsStandaloneZip,
                         exportProjectAsStandaloneHTML, exportProjectAsAudioTrack,
                         exportSelectedClip;
                       run; try rewrite Hclip; cbn; try rewrite Hinst);
    (split; [intros [name Hmodal] | intros Hin]);
    first [ no_elem Hmodal | no_elem Hin
          | find_elem; fail
          | exists "ExportMedia"; find_elem ].
Qed.

(** C5, as the specification has it, fails for the standalone ZIP export: it
    is one of the five format handlers, and it opens no modal.  Only four
    handlers of the file go through all three steps. *)
Lemma exportProjectAsStandaloneZip_opens_no_modal :
  let browser := Demo.browser0 VUndefined EmptyString in
  AsStandaloneZip ∈ format_exports ∧
  ¬ export_orchestration Demo.engine0 browser AsStandaloneZip
      Demo.args0 Demo.editor0 ∧
  ∀ h, export_orchestration Demo.engine0 browser h Demo.args0 Demo.editor0 →
       h ∈ modal_exports.
Proof.
  intros browser. split; [unfold format_exports; find_elem|]. split.
  - intros [[name Hmodal] _]. vm_compute in Hmodal. no_elem Hmodal.
  - intros h [Hmodal _]. by apply opens_modal_iff in Hmodal.
Qed.

(** C5, amended: each of the five format handlers (animated GIF, image
    sequence, video, SVG image, standalone ZIP) shows an info toast,
    delegates to its export helper, and turns that toast into a success
    toast when the helper finishes.  The first four open the [ExportMedia]
    modal first: it is the first thing they do, and the delegation the last.
    The standalone ZIP handler opens no modal. *)
Theorem format_exports_orchestration
    (engine : Engine) (browser : Browser) (h : ExportHandler)
    (args : ExportArgs) (ed : Editor) :
  h ∈ format_exports →
  let events := emitted (export_handler engine browser h args) ed in
  delegates engine browser h args ed ∧
  shows_success_when_finished engine browser h args ed ∧
  (h ≠ AsStandaloneZip →
     head events = Some (OpenModal "ExportMedia") ∧
     (∃ options, last events = Some (Delegate (export_module h) options)) ∧
     OpenModal "ExportMedia" ∈ events) ∧
  (h = AsStandaloneZip →
     ¬ opens_modal engine browser h args ed ∧
     ∃ text options,
       events = [Toast text "info" false; Delegate (export_module h) options]).
Proof.
  intros Hh events. subst events. unfold format_exports in Hh.
  repeat (apply elem_of_cons in Hh as [->|Hh]);
    [..|by apply not_elem_of_nil in Hh];
    (split; [|split; [split; [|intros result later]|split; [intros Hne|intros He]]]);
    try discriminate He; try (by destruct Hne);
    unfold delegates, opens_modal;
    try (split; [intros [name Hmodal]; revert Hmodal|]);
    read_emitted ltac:(unfold export_handler, exportProjectAsAnimatedGIF,
                         exportProjectAsAnimatedGIF_onFinish,
                         exportProjectAsImageSequence,
                         exportProjectAsImageSequence_onFinish,
                         exportProjectAsVideo, exportProjectAsVideo_onFinish,
                         exportProjectAsImageSVG,
                         exportProjectAsImageSVG_onFinish,
                         exportProjectAsStandaloneZip,
                         exportProjectAsStandaloneZip_bundled, only_onFinish);
    cbn [export_module];
    first
      [ intros Hmodal; no_elem Hmodal
      | split; [reflexivity | split; [eexists; reflexivity | find_elem]]
      | eexists; eexists; reflexivity
      | eexists; find_elem ].
Qed.

Lemma format_exports_orchestration_witness :
  let browser := Demo.browser0 VUndefined EmptyString in
  let events :=
    emitted (export_handler Demo.engine0 browser AsAnimatedGIF Demo.args0)
            Demo.editor0 in
  delegates Demo.engine0 browser AsAnimatedGIF Demo.args0 Demo.editor0 ∧
  shows_success_when_finished Demo.engine0 browser AsAnimatedGIF
    Demo.args0 Demo.editor0 ∧
  head events = Some (OpenModal "ExportMedia") ∧
  OpenModal "ExportMedia" ∈ events.
Proof.
  intros browser events.
  assert (AsAnimatedGIF ∈ format_exports) as Hin by apply list_elem_of_here.
  destruct (format_exports_orchestration Demo.engine0 browser AsAnimatedGIF
              Demo.args0 Demo.editor0 Hin) as (Hd & Hs & Hm & _).
  assert (AsAnimatedGIF ≠ AsStandaloneZip) as Hne by discriminate.
  destruct (Hm Hne) as (Hfirst & _ & Hmodal).
  split; [exact Hd|]. split; [exact Hs|]. split; [exact Hfirst | exact Hmodal].
Defined.

(** ** Further properties of the handlers *)

(** Unfolds the further handlers. *)
Ltac run_more :=
  unfold toggleClipBorders, toggleOnionSkin, toggle_prop, activateLastTool,
    eyedropper_callback, selectObjects, getAllSelectionAttributeNames,
    createClipFromSelection, createButtonFromSelection, breakApartSelection,
    copySelectionToClipboard, duplicateSelection, cutSelectionToClipboard,
    pasteFromClipboard;
  run.

Lemma strict_eq_VStr_false (s : string) (v : JsVal) :
  v ≠ VStr s → strict_eq v (VStr s) = false.
Proof.
  intros Hne. destruct v; simpl; try done.
  apply bool_decide_eq_false. congruence.
Qed.

(** X1: whatever message the engine reports, [errorHandler] writes it to the
    console and shows exactly one warning toast, and touches nothing else; a
    message it has no text for is shown as it is. *)
Theorem errorHandler_one_warning (message : JsVal) (ed : Editor) :
  ∃ text,
    emitted (errorHandler message) ed
      = [ConsoleLog [message]; Toast text "warning" false] ∧
    exec (errorHandler message) ed
      = with_log (log (exec (errorHandler message) ed)) ed ∧
    (message ∉ VStr <$> engine_error_codes → text = to_string message).
Proof.
  destruct (strict_eq message (VStr "OUT_OF_BOUNDS")) eqn:E1;
    [|destruct (strict_eq message (VStr "LEAKY_HOLE")) eqn:E2;
      [|destruct (strict_eq message (VStr "NO_PATHS")) eqn:E3;
        [|destruct (strict_eq message (VStr "CLICK_NOT_ALLOWED_LAYER_LOCKED")) eqn:E4;
          [|destruct (strict_eq message (VStr "CLICK_NOT_ALLOWED_LAYER_HIDDEN")) eqn:E5;
            [|destruct (strict_eq message (VStr "CLICK_NOT_ALLOWED_NO_FRAME")) eqn:E6]]]]];
    (eexists; (split; [|split]);
     [ read_emitted ltac:(unfold errorHandler; run;
                          rewrite ?E1, ?E2, ?E3, ?E4, ?E5, ?E6; cbn); reflexivity
     | unfold errorHandler; run; rewrite ?E1, ?E2, ?E3, ?E4, ?E5, ?E6; reflexivity
     | intros Hnew; try reflexivity; exfalso; apply Hnew ]).
  all: match goal with
       | E : strict_eq ?m (VStr ?c) = true |- _ =>
           destruct m; try discriminate E;
           apply bool_decide_eq_true in E as ->;
           apply list_elem_of_fmap_2; unfold engine_error_codes; find_elem
       end.
Qed.

Lemma errorHandler_one_warning_witness :
  emitted (errorHandler (VStr "DISK_FULL")) Demo.editor0
    = [ConsoleLog [VStr "DISK_FULL"]; Toast "DISK_FULL" "warning" false].
Proof.
  destruct (errorHandler_one_warning (VStr "DISK_FULL") Demo.editor0)
    as (text & Hev & _ & Htext).
  rewrite Hev, Htext; [reflexivity|].
  intros (s & Hs & Hin)%list_elem_of_fmap. injection Hs as <-.
  unfold engine_error_codes in Hin. no_elem Hin.
Defined.

(** X2: a project file that cannot be read is treated differently on the two
    ways in.  Downloaded from the URL, it resets the editor to a fresh
    project, with a change notification and without any message; opened from
    a file, it leaves the project as it is and makes no change
    notification. *)
Theorem unreadable_project_resets_or_keeps
    (engine : Engine) (file : JsFile) (started ed : Editor) :
  let from_url := eval (tryToParseProjectURL_blob engine) started in
  let from_file := eval (importProjectAsWickFile engine file) started in
  project (exec (from_url None) ed) = selection_clear engine (new_Project engine) ∧
  count_events is_change (emitted (from_url None) ed) = 1 ∧
  count_events is_toast (emitted (from_url None) ed) = 0 ∧
  project (exec (from_file None) ed) = project ed ∧
  count_events is_change (emitted (from_file None) ed) = 0 ∧
  count_events is_toast (emitted (from_file None) ed) = 1.
Proof.
  intros from_url from_file. subst from_url from_file.
  repeat split;
    try read_emitted ltac:(unfold tryToParseProjectURL_blob, importProjectAsWickFile,
                             importProjectAsWickFile_loaded, setupNewProject,
                             attachErrorHandlers);
    try reflexivity;
    unfold tryToParseProjectURL_blob, importProjectAsWickFile,
      importProjectAsWickFile_loaded, setupNewProject, attachErrorHandlers;
    run; reflexivity.
Qed.

(** X3: the wick file import, the wick file export and the export to a new
    window leave no wait overlay behind.  [importProjectAsWickFile],
    [exportProjectAsWickFile] and [exportProjectToNewWindow] each show the
    overlay once and never hide it themselves; their callback hides it
    exactly once and never shows it, whether the helper succeeded or not.
    (The overlay is also shown by [loadAutosavedProject] and
    [togglePreviewPlaying], which this statement does not cover.) *)
Theorem wait_overlay_shown_once_hidden_once
    (engine : Engine) (browser : Browser) (file : JsFile) (ed later : Editor) :
  let shown_once {A : Type} (handler : M A) :=
    count_events is_show (emitted handler ed) = 1 ∧
    count_events is_hide (emitted handler ed) = 0 in
  let hidden_once (callback : M unit) :=
    count_events is_hide (emitted callback later) = 1 ∧
    count_events is_show (emitted callback later) = 0 in
  shown_once (importProjectAsWickFile engine file) ∧
  (∀ loaded,
     hidden_once (eval (importProjectAsWickFile engine file) ed loaded)) ∧
  shown_once (exportProjectAsWickFile browser) ∧
  (∀ written,
     hidden_once (onFinish (eval (exportProjectAsWickFile browser) ed) written)) ∧
  shown_once exportProjectToNewWindow ∧
  (∀ previewWindow,
     hidden_once (onFinish (eval exportProjectToNewWindow ed) previewWindow)).
Proof.
  cbn zeta.
  repeat split;
    try (destruct loaded as [loaded|]);
    try (destruct (strict_eq written VUndefined) eqn:Hw);
    try (destruct (truthy previewWindow) eqn:Ht);
    read_emitted ltac:(unfold importProjectAsWickFile,
                         importProjectAsWickFile_loaded, setupNewProject,
                         attachErrorHandlers, exportProjectAsWickFile,
                         exportProjectAsWickFile_written,
                         exportProjectToNewWindow,
                         exportProjectToNewWindow_opened, only_onFinish;
                       run; rewrite ?Hw, ?Ht);
    reflexivity.
Qed.

(** X4: the callback of [importFileAsAsset] shows one toast in every case,
    and it makes its change notification exactly when the asset is not
    [null]: an [undefined] asset counts as imported. *)
Theorem importFileAsAsset_notifies_unless_null
    (file : JsFile) (asset : JsVal) (started ed : Editor) :
  let imported := eval (importFileAsAsset file None) started in
  let events := emitted (imported asset) ed in
  count_events is_toast events = 1 ∧
  (ProjectDidChange (action "Import File As Asset") ∈ events ↔
   strict_eq asset VNull = false) ∧
  (strict_eq asset VNull = false →
   events =
     [Toast ("Imported " ++ dquote ++ file_name file ++ dquote ++ " successfully.")
            "success" false;
      ProjectDidChange (action "Import File As Asset")]).
Proof.
  intros imported events. subst imported events.
  destruct (strict_eq asset VNull) eqn:Hnull;
    read_emitted ltac:(unfold importFileAsAsset, importFileAsAsset_imported;
                       run; rewrite Hnull);
    (split; [reflexivity|split; [split|]]); try done.
  - intros Hin. no_elem Hin.
  - intros _. find_elem.
Qed.

Lemma importFileAsAsset_notifies_unless_null_witness :
  let imported :=
    eval (importFileAsAsset {| file_name := "cat.png" |} None) Demo.editor0 in
  ProjectDidChange (action "Import File As Asset")
    ∈ emitted (imported VUndefined) Demo.editor0.
Proof.
  intros imported.
  destruct (importFileAsAsset_notifies_unless_null {| file_name := "cat.png" |}
              VUndefined Demo.editor0 Demo.editor0) as (_ & Hiff & _).
  apply Hiff. reflexivity.
Defined.

(** X5: the callback of [exportProjectAsWickFile] saves a file exactly when
    the engine handed it something other than [undefined].  Then it turns the
    handler's toast into a success toast and saves under the project's name
    at that moment, followed by the time stamp and [.wick]; otherwise it
    turns the toast into an error toast and saves nothing. *)
Theorem exportProjectAsWickFile_saves_unless_undefined
    (browser : Browser) (file : JsVal) (ed later : Editor) :
  let callbacks := eval (exportProjectAsWickFile browser) ed in
  let toastID := length (filter is_toast (log ed)) in
  let events := emitted (onFinish callbacks file) later in
  (strict_eq file VUndefined = true →
     events = [UpdateToast toastID "error" "Could not export .wick file.";
               HideWaitOverlay]) ∧
  (strict_eq file VUndefined = false →
     events =
       [UpdateToast toastID "success" "Successfully saved .wick file.";
        SaveAs (PFile file)
               (VStr (to_string (js_add (get_prop (props (project later)) "name")
                                        (timeStamp browser)) ++ ".wick"));
        HideWaitOverlay]) ∧
  (count_events is_save events = 1 ↔ strict_eq file VUndefined = false).
Proof.
  intros callbacks toastID events. subst callbacks events.
  destruct (strict_eq file VUndefined) eqn:Hundef;
    read_emitted ltac:(unfold exportProjectAsWickFile,
                         exportProjectAsWickFile_written, only_onFinish;
                       run; rewrite Hundef);
    rewrite ?js_add_VStr_r; repeat split; try done.
Qed.

Lemma exportProjectAsWickFile_saves_unless_undefined_witness :
  let browser := Demo.browser0 VUndefined EmptyString in
  let callbacks := eval (exportProjectAsWickFile browser) Demo.editor0 in
  count_events is_save (emitted (onFinish callbacks VNull) Demo.editor0) = 1 ∧
  count_events is_save (emitted (onFinish callbacks VUndefined) Demo.editor0) = 0.
Proof.
  intros browser callbacks.
  destruct (exportProjectAsWickFile_saves_unless_undefined browser VNull
              Demo.editor0 Demo.editor0) as (_ & _ & Hsaved).
  destruct (exportProjectAsWickFile_saves_unless_undefined browser VUndefined
              Demo.editor0 Demo.editor0) as (Hnot & _ & _).
  split; [apply Hsaved; reflexivity|].
  subst callbacks. rewrite (Hnot eq_refl). reflexivity.
Defined.

(** X6: when the name of an exported file is fixed.  The GIF, ZIP and HTML
    exports take [args.name], or the project's name if that is falsy, at the
    moment the export is started: a later change of the project's name does
    not reach the file.  The image sequence, the SVG image and the wick file
    are named after the project at the moment the helper finishes, whatever
    [args.name] is. *)
Theorem export_file_names
    (engine : Engine) (browser : Browser) (args : ExportArgs)
    (result : JsVal) (ed later : Editor) :
  let name_at (e : Editor) := get_prop (props (project e)) "name" in
  let chosen := js_or (args_name args) (name_at ed) in
  let saved (handler : M Callbacks) :=
    filter is_save (emitted (onFinish (eval handler ed) result) later) in
  saved (exportProjectAsAnimatedGIF args)
    = [SaveAs (PFile result) (VStr (to_string chosen ++ ".gif"))] ∧
  saved (exportProjectAsStandaloneZip args)
    = [SaveAs (PFile result) (VStr (to_string chosen ++ ".zip"))] ∧
  saved (exportProjectAsStandaloneHTML args)
    = [SaveAs (PBlob [result] (Some "text/plain"))
              (VStr (to_string chosen ++ ".html"))] ∧
  saved (exportProjectAsImageSequence browser args)
    = [SaveAs (PFile result)
              (VStr (to_string (name_at later) ++ "_imageSequence.zip"))] ∧
  saved (exportProjectAsImageSVG browser)
    = [SaveAs (PFile result)
              (VStr (to_string (js_add (name_at later) (timeStamp browser))
                       ++ ".svg"))] ∧
  (strict_eq result VUndefined = false →
   saved (exportProjectAsWickFile browser)
     = [SaveAs (PFile result)
               (VStr (to_string (js_add (name_at later) (timeStamp browser))
                        ++ ".wick"))]).
Proof.
  cbn zeta. repeat split; try intros Hdef;
    read_emitted ltac:(unfold exportProjectAsAnimatedGIF,
                         exportProjectAsAnimatedGIF_onFinish,
                         exportProjectAsStandaloneZip,
                         exportProjectAsStandaloneZip_bundled,
                         exportProjectAsStandaloneHTML,
                         exportProjectAsStandaloneHTML_bundled,
                         exportProjectAsImageSequence,
                         exportProjectAsImageSequence_onFinish,
                         exportProjectAsImageSVG,
                         exportProjectAsImageSVG_onFinish,
                         exportProjectAsWickFile,
                         exportProjectAsWickFile_written, only_onFinish;
                       run; rewrite ?Hdef);
    rewrite ?js_add_VStr_r; reflexivity.
Qed.

Lemma export_file_names_witness :
  let browser := Demo.browser0 VUndefined EmptyString in
  let file := VObj 32 "[object File]" in
  filter is_save
    (emitted (onFinish (eval (exportProjectAsWickFile browser) Demo.editor0) file)
             Demo.editor0)
    = [SaveAs (PFile file) (VStr "My Project_1-1-2020_12-00-00.wick")].
Proof.
  intros browser file.
  destruct (export_file_names Demo.engine0 browser Demo.args0 file
              Demo.editor0 Demo.editor0) as (_ & _ & _ & _ & _ & Hwick).
  exact (Hwick eq_refl).
Defined.

(** X7: which export failures reach the user.  The four exports that pass
    an error callback to their helper (animated GIF, image sequence, video,
    SVG image) keep a failure on the console: whatever the message, the error
    callback only writes to the console and hides the wait overlay, so it
    shows and updates no toast, sets no state, saves nothing and makes no
    change notification.  The two exports that learn of a failure from the
    result do tell the user: [exportProjectAsWickFile], handed [undefined],
    turns its toast into an error toast, and [exportProjectToNewWindow],
    handed a falsy window, shows an error toast that stays open. *)
Theorem export_failures_console_or_toast
    (engine : Engine) (browser : Browser)
    (args : ExportArgs) (message : JsVal) (ed later : Editor) :
  (∀ h e,
     h ∈ modal_exports →
     e ∈ emitted (onError (eval (export_handler engine browser h args) ed) message)
                 later →
     is_quiet e = true) ∧
  emitted (onFinish (eval (exportProjectAsWickFile browser) ed) VUndefined) later
    = [UpdateToast (length (filter is_toast (log ed))) "error"
         "Could not export .wick file.";
       HideWaitOverlay] ∧
  (∀ previewWindow,
     truthy previewWindow = false →
     emitted (onFinish (eval exportProjectToNewWindow ed) previewWindow) later
       = [HideWaitOverlay;
          Toast "Could not open a preview window. Try disabling your popup blocker!"
                "error" true]).
Proof.
  split; [|split].
  - intros h e Hh. unfold modal_exports in Hh.
    repeat (apply elem_of_cons in Hh as [->|Hh]);
      [..|by apply not_elem_of_nil in Hh];
      read_emitted ltac:(unfold export_handler, exportProjectAsAnimatedGIF,
                           exportProjectAsImageSequence, exportProjectAsVideo,
                           exportProjectAsImageSVG);
      intros Hin;
      repeat (apply elem_of_cons in Hin as [->|Hin]; [reflexivity|]);
      by apply not_elem_of_nil in Hin.
  - read_emitted ltac:(unfold exportProjectAsWickFile,
                         exportProjectAsWickFile_written, only_onFinish).
    reflexivity.
  - intros previewWindow Hfalsy.
    read_emitted ltac:(unfold exportProjectToNewWindow,
                         exportProjectToNewWindow_opened, only_onFinish;
                       run; rewrite Hfalsy).
    reflexivity.
Qed.

Lemma export_failures_console_or_toast_witness :
  let browser := Demo.browser0 VUndefined EmptyString in
  let failed h :=
    emitted (onError (eval (export_handler Demo.engine0 browser h Demo.args0)
                           Demo.editor0) (VStr "codec")) Demo.editor0 in
  HideWaitOverlay ∈ failed AsVideo ∧
  is_quiet HideWaitOverlay = true ∧
  emitted (onFinish (eval (exportProjectToNewWindow) Demo.editor0) VNull)
          Demo.editor0
    = [HideWaitOverlay;
       Toast "Could not open a preview window. Try disabling your popup blocker!"
             "error" true].
Proof.
  intros browser failed.
  assert (AsVideo ∈ modal_exports) as Hvideo
    by (apply list_elem_of_further, list_elem_of_further, list_elem_of_here).
  assert (HideWaitOverlay ∈ failed AsVideo) as Hin
    by (vm_compute; apply list_elem_of_here).
  destruct (export_failures_console_or_toast Demo.engine0 browser Demo.args0
              (VStr "codec") Demo.editor0 Demo.editor0) as (Hquiet & _ & Hwindow).
  split; [exact Hin|]. split.
  - exact (Hquiet AsVideo HideWaitOverlay Hvideo Hin).
  - exact (Hwindow VNull eq_refl).
Defined.

(** X8: the image sequence and video exports drop the error message.  Their
    error callbacks hide the wait overlay and log [undefined] in place of the
    message they were given; the GIF and SVG exports log the message. *)
Theorem export_error_message_dropped
    (engine : Engine) (browser : Browser)
    (args : ExportArgs) (message : JsVal) (ed later : Editor) :
  let failed (handler : M Callbacks) :=
    emitted (onError (eval handler ed) message) later in
  failed (exportProjectAsImageSequence browser args)
    = [HideWaitOverlay;
       ConsoleError [VStr "Image Render had an error with message: "; VUndefined]] ∧
  failed (exportProjectAsVideo args)
    = [HideWaitOverlay;
       ConsoleError [VStr "Video Render had an error with message: "; VUndefined]] ∧
  failed (exportProjectAsAnimatedGIF args)
    = [ConsoleError [VStr "Gif Render had an error with message: "; message]] ∧
  failed (exportProjectAsImageSVG browser)
    = [ConsoleError [VStr "SVG builder had an error with message: "; message]].
Proof.
  cbn zeta. repeat split;
    read_emitted ltac:(unfold exportProjectAsImageSequence, exportProjectAsVideo,
                         exportProjectAsAnimatedGIF, exportProjectAsImageSVG);
    reflexivity.
Qed.

(** X9: [exportSelectedClip] exports clips only.  When nothing is selected or
    the selected object is not a clip, it does nothing at all; otherwise it
    hands the clip to the helper once, and the file is saved under the
    clip's identifier, or under [object] when the identifier is falsy,
    followed by [.wickobj]. *)
Theorem exportSelectedClip_only_clips
    (engine : Engine) (file : JsVal) (ed later : Editor) :
  let clip := getSelectedObject engine (project ed) in
  let is_clip := truthy clip && instanceOf engine clip Clip in
  let callbacks := eval (exportSelectedClip engine) ed in
  (is_clip = false →
     exec (exportSelectedClip engine) ed = ed ∧
     exec (onFinish callbacks file) later = later) ∧
  (is_clip = true →
     emitted (exportSelectedClip engine) ed
       = [Delegate WickObjectFile_toWickObjectFile [("format", VStr "blob")]] ∧
     emitted (onFinish callbacks file) later
       = [SaveAs (PFile file)
            (VStr (to_string (js_or (identifier engine clip) (VStr "object"))
                     ++ ".wickobj"))]) ∧
  (is_clip = true → truthy (identifier engine clip) = false →
     emitted (onFinish callbacks file) later
       = [SaveAs (PFile file) (VStr "object.wickobj")]).
Proof.
  intros clip is_clip callbacks. subst is_clip callbacks.
  destruct (truthy clip) eqn:Hclip;
    [destruct (instanceOf engine clip Clip) eqn:Hinst|]; cbn [andb];
    (split; [|split]); intros His; try discriminate His; try intros Hid;
    try (split; [unfold exportSelectedClip; run; fold clip; rewrite Hclip; cbn;
                 rewrite ?Hinst; reflexivity|]);
    try (unfold exportSelectedClip; run; fold clip; rewrite Hclip; cbn;
         rewrite ?Hinst; reflexivity);
    try (split);
    read_emitted ltac:(unfold exportSelectedClip, exportSelectedClip_written,
                         only_onFinish;
                       run; fold clip; rewrite Hclip; cbn; rewrite ?Hinst);
    rewrite ?js_add_VStr_r; unfold js_or; rewrite ?Hid; reflexivity.
Qed.

Lemma exportSelectedClip_only_clips_witness :
  let callbacks := eval (exportSelectedClip Demo.engine0) Demo.editor0 in
  emitted (onFinish callbacks (VObj 33 "[object Blob]")) Demo.editor0
    = [SaveAs (PFile (VObj 33 "[object Blob]")) (VStr "object.wickobj")].
Proof.
  intros callbacks.
  destruct (exportSelectedClip_only_clips Demo.engine0 (VObj 33 "[object Blob]")
              Demo.editor0 Demo.editor0) as (_ & _ & Hobject).
  exact (Hobject eq_refl eq_refl).
Defined.

(** X10: copy, duplicate, cut and paste answer the engine in one of two ways
    and never both: when the engine found something to work on, exactly one
    change notification that goes into the history; when it did not, exactly
    one warning toast.  The project is the one the engine left. *)
Theorem clipboard_notifies_or_warns
    (more : MoreEngine) (a : ClipboardAction) (ed : Editor) :
  let answer := clipboard_call more a (project ed) in
  let events := emitted (clipboard_handler more a) ed in
  project (exec (clipboard_handler more a) ed) = answer.2 ∧
  (answer.1 = true →
     ∃ name, events = [ProjectDidChange {| skipHistory := false; actionName := name |}]) ∧
  (answer.1 = false → ∃ text, events = [Toast text "warning" false]).
Proof.
  intros answer events. subst events.
  destruct a; cbn [clipboard_handler clipboard_call] in *;
    destruct answer as [ok p] eqn:Hanswer; subst answer;
    (split; [run_more; rewrite Hanswer; by destruct ok|]);
    (split; intros Hok; cbn in Hok; subst ok; eexists);
    read_emitted ltac:(run_more; rewrite Hanswer); reflexivity.
Qed.

Lemma clipboard_notifies_or_warns_witness :
  emitted (clipboard_handler DemoMore.more0 Copy) Demo.editor0
    = [ProjectDidChange (action "Copy Selection")] ∧
  emitted (clipboard_handler DemoMore.more0 Cut) Demo.editor0
    = [Toast "There is nothing to duplicate." "warning" false].
Proof.
  destruct (clipboard_notifies_or_warns DemoMore.more0 Copy Demo.editor0)
    as (_ & Hdone & _).
  destruct (clipboard_notifies_or_warns DemoMore.more0 Cut Demo.editor0)
    as (_ & _ & Hnot).
  destruct (Hdone eq_refl) as [name Hname].
  destruct (Hnot eq_refl) as [text Htext].
  split; reflexivity.
Defined.

(** X11: the guards of [createClipFromSelection].  With an empty selection,
    or with a selection of a single clip when wrapping was switched off, it
    only writes to the console: the engine is not called and no change
    notification is made.  In every other case, and always when
    [wrapSingularClip] is left out, a lone clip included, it creates the clip
    and notifies once. *)
Theorem createClipFromSelection_guards
    (more : MoreEngine) (name wrapSingularClip : JsVal) (ed : Editor) :
  let p := project ed in
  let handler := createClipFromSelection more name wrapSingularClip in
  let empty := strict_eq (selection_numObjects more p) (VNum 0) in
  let lone_clip :=
    strict_eq (selection_numObjects more p) (VNum 1) &&
    strict_eq (default VUndefined (selection_types more p !! 0)) (VStr "Clip") in
  let no_wrap :=
    negb (strict_eq wrapSingularClip VUndefined) && negb (truthy wrapSingularClip) in
  (empty = true →
     exec handler ed = with_log (log (exec handler ed)) ed ∧
     emitted handler ed
       = [ConsoleLog [VStr "No selection from which to create clips."]]) ∧
  (empty = false → lone_clip = true → no_wrap = true →
     exec handler ed = with_log (log (exec handler ed)) ed ∧
     emitted handler ed = [ConsoleLog [VStr "That's already a Clip."]]) ∧
  (empty = false → lone_clip && no_wrap = false →
     project (exec handler ed) = project_createClipFromSelection more name "Clip" p ∧
     emitted handler ed
       = [ProjectDidChange (action "Create Clip From Selection")]).
Proof.
  intros p handler empty lone_clip no_wrap.
  subst handler empty lone_clip no_wrap.
  destruct (strict_eq (selection_numObjects more p) (VNum 0)) eqn:Hempty;
    destruct (strict_eq (selection_numObjects more p) (VNum 1)) eqn:Hone;
    destruct (strict_eq (default VUndefined (selection_types more p !! 0))
                        (VStr "Clip")) eqn:Hclip;
    destruct (strict_eq wrapSingularClip VUndefined) eqn:Hundef;
    destruct (truthy wrapSingularClip) eqn:Hwrap;
    cbn [andb negb];
    (split; [|split]); intros; try discriminate; split;
    try read_emitted ltac:(run_more; fold p; rewrite Hempty, ?Hone, ?Hclip, ?Hundef;
                           cbn; rewrite ?Hwrap);
    try reflexivity;
    run_more; fold p; rewrite Hempty, ?Hone, ?Hclip, ?Hundef; cbn; rewrite ?Hwrap;
    reflexivity.
Qed.

Lemma createClipFromSelection_guards_witness :
  emitted (createClipFromSelection DemoMore.more0 (VStr "hero") (VBool false))
          Demo.editor0
    = [ProjectDidChange (action "Create Clip From Selection")].
Proof.
  destruct (createClipFromSelection_guards DemoMore.more0 (VStr "hero")
              (VBool false) Demo.editor0) as (_ & _ & Hcreated).
  exact (proj2 (Hcreated eq_refl eq_refl)).
Defined.

(** [createButtonFromSelection] has no such guard: it calls the engine and
    notifies whatever the selection is. *)
Lemma createButtonFromSelection_unguarded
    (more : MoreEngine) (name : JsVal) (ed : Editor) :
  project (exec (createButtonFromSelection more name) ed)
    = project_createClipFromSelection more name "Button" (project ed) ∧
  emitted (createButtonFromSelection more name) ed
    = [ProjectDidChange (action "Create Button From Selection")].
Proof.
  split; [run_more; reflexivity|].
  read_emitted ltac:(run_more). reflexivity.
Qed.

Lemma includes_VStr (l : list JsVal) (s : string) :
  includes l (VStr s) = true ↔ VStr s ∈ l.
Proof.
  unfold includes. rewrite existsb_exists. split.
  - intros (y & Hy%list_elem_of_In & Hsame).
    assert (y = VStr s) as <-; [|done].
    destruct y; try discriminate Hsame.
    simpl in Hsame. by apply bool_decide_eq_true in Hsame as ->.
  - intros Hin%list_elem_of_In. exists (VStr s). split; [done|].
    simpl. by apply bool_decide_eq_true.
Qed.

(** X12: [breakApartSelection] acts only on a selection that is not empty and
    holds a clip or a button.  Then it calls the engine and notifies once; on
    any other selection it does nothing at all, not even a message. *)
Theorem breakApartSelection_needs_a_clip (more : MoreEngine) (ed : Editor) :
  let p := project ed in
  let breakable :=
    strict_ne (selection_numObjects more p) (VNum 0) = true ∧
    (VStr "Clip" ∈ selection_types more p ∨ VStr "Button" ∈ selection_types more p) in
  (breakable →
     project (exec (breakApartSelection more) ed)
       = project_breakApartSelection more p ∧
     emitted (breakApartSelection more) ed
       = [ProjectDidChange (action "Break Apart Selection")]) ∧
  (¬ breakable → exec (breakApartSelection more) ed = ed).
Proof.
  intros p breakable. subst breakable. unfold strict_ne.
  destruct (strict_eq (selection_numObjects more p) (VNum 0)) eqn:Hempty;
    destruct (includes (selection_types more p) (VStr "Clip")) eqn:Hclip;
    destruct (includes (selection_types more p) (VStr "Button")) eqn:Hbutton;
    cbn [negb];
    (split; [intros [Hsome Hkind]|intros Hnot]);
    try discriminate Hsome;
    try (exfalso; apply Hnot; split; [done|];
         first [left; by apply includes_VStr | right; by apply includes_VStr]);
    try (destruct Hkind as [Hkind|Hkind]; apply includes_VStr in Hkind; congruence);
    try (split;
         [|read_emitted ltac:(run_more; fold p; rewrite Hempty, Hclip, ?Hbutton);
           reflexivity]);
    run_more; fold p; rewrite Hempty, ?Hclip, ?Hbutton; try reflexivity;
    by destruct ed.
Qed.

Lemma breakApartSelection_needs_a_clip_witness :
  emitted (breakApartSelection DemoMore.more0) Demo.editor0
    = [ProjectDidChange (action "Break Apart Selection")].
Proof.
  destruct (breakApartSelection_needs_a_clip DemoMore.more0 Demo.editor0)
    as [Hbreak _].
  refine (proj2 (Hbreak _)). split; [reflexivity|]. left.
  cbn. apply list_elem_of_further, list_elem_of_here.
Defined.

Lemma getSelectionAttribute_reads_only (name : string) (ed : Editor) :
  getSelectionAttribute name ed = (eval (getSelectionAttribute name) ed, ed).
Proof.
  unfold getSelectionAttribute. run.
  destruct (get_prop (selection (project ed)) name)
    as [| | | | | |r [|x [|y rest]]]; reflexivity.
Qed.

Lemma forEach_cons {A S : Type}
    (body : S -> A -> M S) (s : S) (a : A) (l : list A) (ed : Editor) :
  forEach body s (a :: l) ed =
    let '(s', ed') := body s a ed in forEach body s' l ed'.
Proof. reflexivity. Qed.

(** The loop of [getAllSelectionAttributes], started with any object. *)
Lemma getAllSelectionAttributes_loop
    (names : list string) (newAttributes : gmap string JsVal) (ed : Editor) :
  ∃ result : gmap string JsVal,
    forEach (fun (newAttributes : gmap string JsVal) name =>
               value ← getSelectionAttribute name;
               mret (<[name := value]> newAttributes))
            newAttributes names ed = (result, ed) ∧
    ∀ name, result !! name =
      if bool_decide (name ∈ names)
      then Some (eval (getSelectionAttribute name) ed)
      else newAttributes !! name.
Proof.
  revert newAttributes. induction names as [|n names IH]; intros newAttributes.
  - exists newAttributes. split; [reflexivity|]. intros name.
    by rewrite bool_decide_eq_false_2 by apply not_elem_of_nil.
  - assert ((getSelectionAttribute n
               ≫= (fun value => mret (<[n := value]> newAttributes))) ed
            = (<[n := eval (getSelectionAttribute n) ed]> newAttributes, ed))
      as Hbody.
    { unfold mbind, M_bind, mret, M_ret.
      by rewrite getSelectionAttribute_reads_only. }
    rewrite forEach_cons. cbn beta. rewrite Hbody.
    destruct (IH (<[n := eval (getSelectionAttribute n) ed]> newAttributes))
      as (result & -> & Hresult).
    exists result. split; [reflexivity|]. intros name. rewrite Hresult.
    destruct (decide (name = n)) as [->|Hne].
    + rewrite (bool_decide_eq_true_2 (n ∈ n :: names)) by apply list_elem_of_here.
      rewrite lookup_insert_eq. by case_bool_decide.
    + rewrite lookup_insert_ne by done.
      rewrite (bool_decide_ext (name ∈ n :: names) (name ∈ names)); [done|].
      rewrite elem_of_cons. split; [by intros [?|?] | by right].
Qed.

(** X14: [getAllSelectionAttributes] reads and changes nothing.  The object
    it answers has exactly the attribute names of the selection as keys, and
    under each name what [getSelectionAttribute] answers for it, however
    often the name is listed. *)
Theorem getAllSelectionAttributes_lookup (more : MoreEngine) (ed : Editor) :
  let names := selection_allAttributeNames more (project ed) in
  let attributes := eval (getAllSelectionAttributes more) ed in
  exec (getAllSelectionAttributes more) ed = ed ∧
  (∀ name, name ∈ names →
           attributes !! name = Some (eval (getSelectionAttribute name) ed)) ∧
  (∀ name, name ∉ names → attributes !! name = None) ∧
  dom attributes = list_to_set names.
Proof.
  intros names attributes.
  destruct (getAllSelectionAttributes_loop names ∅ ed) as (result & Hrun & Hresult).
  assert (getAllSelectionAttributes more ed = (result, ed)) as Hall.
  { unfold getAllSelectionAttributes, getAllSelectionAttributeNames.
    unfold mbind, M_bind at 1. unfold gets. fold names. exact Hrun. }
  subst attributes. unfold exec, eval. rewrite Hall. cbn [fst snd].
  split; [reflexivity|]. split; [|split].
  - intros name Hin. by rewrite Hresult, bool_decide_eq_true_2.
  - intros name Hout. by rewrite Hresult, bool_decide_eq_false_2.
  - apply set_eq. intros name. rewrite elem_of_dom, elem_of_list_to_set, Hresult.
    case_bool_decide as Hin; split; try done.
    intros [? Hempty]. by rewrite lookup_empty in Hempty.
Qed.

Lemma getAllSelectionAttributes_lookup_witness :
  let attributes := eval (getAllSelectionAttributes DemoMore.more0) Demo.editor0 in
  attributes !! "fillColor" = Some (VStr "#ff0000") ∧
  attributes !! "fontFamily" = Some VUndefined ∧
  attributes !! "selectionType" = None.
Proof.
  intros attributes.
  destruct (getAllSelectionAttributes_lookup DemoMore.more0 Demo.editor0)
    as (_ & Hin & Hout & _).
  split; [|split].
  - refine (Hin "fillColor" _). cbn. find_elem.
  - refine (Hin "fontFamily" _). cbn. find_elem.
  - refine (Hout "selectionType" _). cbn. intros H. no_elem H.
Defined.

Lemma get_prop_insert_eq (m : gmap string JsVal) (key : string) (v : JsVal) :
  get_prop (<[key := v]> m) key = v.
Proof. unfold get_prop. by rewrite lookup_insert_eq. Qed.

(** X15: [toggleClipBorders] and [toggleOnionSkin] write the negation of the
    flag's truthiness and notify once.  Toggling twice therefore leaves the
    flag as the boolean of what it was, and a project whose flag was a
    boolean is after two toggles the project it was; no other key of the
    project is written. *)
Theorem toggles_flip_and_restore (ed : Editor) :
  let flips (handler : M unit) (key : string) :=
    let p := project ed in
    let once := project (exec handler ed) in
    let twice := project (exec handler (exec handler ed)) in
    get_prop (props once) key = VBool (negb (truthy (get_prop (props p) key))) ∧
    get_prop (props twice) key = VBool (truthy (get_prop (props p) key)) ∧
    (∀ other, other ≠ key → props once !! other = props p !! other) ∧
    (∀ b, props p !! key = Some (VBool b) → twice = p) ∧
    count_events is_change (emitted handler ed) = 1 in
  flips toggleClipBorders "showClipBorders" ∧
  flips toggleOnionSkin "onionSkinEnabled".
Proof.
  cbn zeta.
  split; (split; [|split; [|split; [|split]]]);
    try (read_emitted ltac:(run_more); reflexivity);
    try (intros x Hx);
    run_more; rewrite ?get_prop_insert_eq; cbn [truthy];
    rewrite ?negb_involutive, ?lookup_insert_ne by done; try done;
    unfold get_prop; rewrite Hx; cbn;
    rewrite insert_insert_eq, insert_id by done; by destruct (project ed).
Qed.

Lemma toggles_flip_and_restore_witness :
  let borders := {[ "showClipBorders" := VBool true ]} : gmap string JsVal in
  let ed := with_project (with_props borders Demo.project0) Demo.editor0 in
  project (exec toggleClipBorders (exec toggleClipBorders ed)) = project ed.
Proof.
  intros borders ed.
  destruct (toggles_flip_and_restore ed) as [(_ & _ & _ & Hback & _) _].
  exact (Hback true eq_refl).
Defined.

(** X16: with an engine whose setter makes the named tool the active one,
    asking [setActiveTool] for the same tool again changes nothing: no event
    is emitted and [lastUsedTool] still is the tool that was active before
    the first call, not the new tool itself. *)
Theorem setActiveTool_same_tool_again
    (engine : Engine) (newTool : string) (ed : Editor) :
  (∀ name p, tool_name (activeTool (set_activeTool engine name p)) = name) →
  newTool ≠ tool_name (activeTool (project ed)) →
  let once := exec (setActiveTool engine newTool) ed in
  let twice := exec (setActiveTool engine newTool) once in
  twice = once ∧
  emitted (setActiveTool engine newTool) once = [] ∧
  lastUsedTool twice = Some (activeTool (project ed)).
Proof.
  intros Hsetter Hother once twice.
  assert (twice = once) as Hsame by apply (setActiveTool_twice engine Hsetter).
  split; [exact Hsame|]. split; [by apply emitted_unchanged|].
  rewrite Hsame. subst once. unfold setActiveTool. run.
  by rewrite bool_decide_eq_true_2.
Qed.

Lemma setActiveTool_same_tool_again_witness :
  let once := exec (setActiveTool Demo.engine0 "brush") Demo.editor0 in
  exec (setActiveTool Demo.engine0 "brush") once = once ∧
  lastUsedTool (exec (setActiveTool Demo.engine0 "brush") once)
    = Some {| tool_name := "cursor" |}.
Proof.
  intros once.
  assert ("brush" ≠ tool_name (activeTool (project Demo.editor0))) as Hother
    by (vm_compute; discriminate).
  destruct (setActiveTool_same_tool_again Demo.engine0 "brush" Demo.editor0
              (fun name p => eq_refl) Hother) as (Hsame & _ & Hlast).
  split; [exact Hsame | exact Hlast].
Defined.

(** X17: [activateLastTool] undoes a tool switch.  With an engine whose
    setter makes the tool it is given the active one, switching to another
    tool with [setActiveTool] and then calling [activateLastTool] leaves the
    tool active that was active at the start, and notifies once. *)
Theorem activateLastTool_returns
    (engine : Engine) (more : MoreEngine) (newTool : string) (ed : Editor) :
  (∀ tool p, activeTool (assign_activeTool more (Some tool) p) = tool) →
  newTool ≠ tool_name (activeTool (project ed)) →
  let switched := exec (setActiveTool engine newTool) ed in
  activeTool (project (exec (activateLastTool more) switched))
    = activeTool (project ed) ∧
  emitted (activateLastTool more) switched
    = [ProjectDidChange (action "Activate Last Tool")].
Proof.
  intros Hsetter Hother switched. split.
  - subst switched. unfold setActiveTool. run_more.
    rewrite bool_decide_eq_true_2 by done. cbn. apply Hsetter.
  - clearbody switched. read_emitted ltac:(run_more). reflexivity.
Qed.

Lemma activateLastTool_returns_witness :
  tool_name
    (activeTool
       (project (exec (activateLastTool DemoMore.more0)
                      (exec (setActiveTool Demo.engine0 "eyedropper")
                            Demo.editor0))))
    = "cursor".
Proof.
  assert ("eyedropper" ≠ tool_name (activeTool (project Demo.editor0))) as Hother
    by (vm_compute; discriminate).
  destruct (activateLastTool_returns Demo.engine0 DemoMore.more0 "eyedropper"
              Demo.editor0 (fun tool p => eq_refl) Hother) as [Hback _].
  rewrite Hback. reflexivity.
Defined.

(** X18: the eyedropper.  [onEyedropperPickedColor] fails when no tool was
    ever switched, for there is no callback to call.  After a switch to
    another tool it succeeds: it sets the [fillColor] setting to the colour
    picked, hands the tool that was active before the switch back to the
    engine, and makes one change notification. *)
Theorem onEyedropperPickedColor_after_switch
    (engine : Engine) (more : MoreEngine) (newTool : string)
    (color : JsVal) (ed : Editor) :
  (_onEyedropperPickedColor ed = None →
     onEyedropperPickedColor engine more color ed = None) ∧
  (newTool ≠ tool_name (activeTool (project ed)) →
     let switched := exec (setActiveTool engine newTool) ed in
     ∃ picked,
       onEyedropperPickedColor engine more color switched = Some (tt, picked) ∧
       project picked
         = assign_activeTool more (Some (activeTool (project ed)))
             (setSetting engine "fillColor" (Wick_Color more color)
                (project switched)) ∧
       log picked = ProjectDidChange (action "Activate Last Tool") :: log switched).
Proof.
  split.
  - intros Hnone. unfold onEyedropperPickedColor. by rewrite Hnone.
  - intros Hother switched. subst switched.
    unfold onEyedropperPickedColor, setActiveTool. run_more.
    rewrite bool_decide_eq_true_2 by done. cbn. eexists. split; [reflexivity|].
    split; reflexivity.
Qed.

Lemma onEyedropperPickedColor_after_switch_witness :
  onEyedropperPickedColor Demo.engine0 DemoMore.more0 (VStr "#336699")
    Demo.editor0 = None ∧
  ∃ picked,
    onEyedropperPickedColor Demo.engine0 DemoMore.more0 (VStr "#336699")
      (exec (setActiveTool Demo.engine0 "eyedropper") Demo.editor0)
      = Some (tt, picked) ∧
    toolSettings (project picked) !! "fillColor" = Some (VObj 41 "#336699") ∧
    activeTool (project picked) = {| tool_name := "cursor" |}.
Proof.
  destruct (onEyedropperPickedColor_after_switch Demo.engine0 DemoMore.more0
              "eyedropper" (VStr "#336699") Demo.editor0) as [Hfails Hpicks].
  split; [exact (Hfails eq_refl)|].
  assert ("eyedropper" ≠ tool_name (activeTool (project Demo.editor0))) as Hother
    by (vm_compute; discriminate).
  destruct (Hpicks Hother) as (picked & Hrun & Hproject & _).
  exists picked. split; [exact Hrun|]. rewrite Hproject. split; reflexivity.
Defined.

(** X19: one call of [updateProjectSettings] settles the settings.  When no
    new value is NaN, no key differs from the project any more after the
    call, and a second call with the same settings changes nothing and
    notifies nobody. *)
Theorem updateProjectSettings_settles (newSettings : JsObject) (ed : Editor) :
  (∀ key, Object_get newSettings key ≠ VNaN) →
  let ed' := exec (updateProjectSettings newSettings) ed in
  (∀ key, differs newSettings (project ed') key = false) ∧
  exec (updateProjectSettings newSettings) ed' = ed' ∧
  emitted (updateProjectSettings newSettings) ed' = [].
Proof.
  intros Hnan ed'.
  destruct (updateProjectSettings_again newSettings ed Hnan) as [Hsame Hquiet].
  fold ed' in Hsame, Hquiet. split; [|by split].
  intros key.
  destruct (updateProjectSettings_run newSettings ed) as (m & Hrun & Hm).
  fold ed' in Hrun. rewrite Hrun. cbn. unfold differs, writes, get_prop. cbn.
  rewrite Hm. destruct (differs newSettings (project ed) key) eqn:Hd; cbn.
  - unfold strict_ne. rewrite strict_eq_refl by apply Hnan.
    by rewrite !andb_false_r.
  - exact Hd.
Qed.

Lemma updateProjectSettings_settles_witness :
  let newSettings := [("width", VNum 1280); ("name", VStr "Intro")] in
  let ed' := exec (updateProjectSettings newSettings) Demo.editor0 in
  emitted (updateProjectSettings newSettings) ed' = [].
Proof.
  intros newSettings ed'.
  assert (∀ key, Object_get newSettings key ≠ VNaN) as Hnan.
  { intros key. subst newSettings. cbn.
    repeat (case_bool_decide; [discriminate|]). discriminate. }
  exact (proj2 (proj2 (updateProjectSettings_settles newSettings Demo.editor0 Hnan))).
Defined.

Lemma Object_get_elem (o : JsObject) (key : string) (v : JsVal) :
  NoDup (Object_keys o) → (key, v) ∈ o → Object_get o key = v.
Proof.
  unfold Object_keys. induction o as [|[k w] o IH]; intros Hnodup Hin.
  - by apply not_elem_of_nil in Hin.
  - cbn in Hnodup. apply NoDup_cons in Hnodup as [Hfresh Hnodup]. cbn.
    apply elem_of_cons in Hin as [[= -> ->]|Hin].
    + by rewrite bool_decide_eq_true_2.
    + case_bool_decide as Hk; [|by apply IH]. subst k. destruct Hfresh.
      by apply (list_elem_of_fmap_2 fst o (key, v)).
Qed.

Lemma Object_get_missing (o : JsObject) (key : string) :
  key ∉ Object_keys o → Object_get o key = VUndefined.
Proof.
  unfold Object_keys. induction o as [|[k w] o IH]; intros Hout; [done|].
  cbn in *. apply not_elem_of_cons in Hout as [Hne Hout].
  rewrite bool_decide_eq_false_2 by done. by apply IH.
Qed.

(** The same properties in another order give the same reads. *)
Lemma Object_get_Permutation (o o' : JsObject) (key : string) :
  NoDup (Object_keys o) → o ≡ₚ o' → Object_get o key = Object_get o' key.
Proof.
  intros Hnodup Hperm.
  assert (Object_keys o ≡ₚ Object_keys o') as Hkeys
    by (unfold Object_keys; by rewrite Hperm).
  assert (NoDup (Object_keys o')) as Hnodup' by by rewrite <- Hkeys.
  destruct (decide (key ∈ Object_keys o)) as [Hin|Hout].
  - unfold Object_keys in Hin.
    apply list_elem_of_fmap in Hin as ([k v] & -> & Hin). cbn.
    rewrite (Object_get_elem o k v) by done.
    symmetry. apply Object_get_elem; [done|]. by rewrite <- Hperm.
  - rewrite !Object_get_missing; [done| |done]. by rewrite <- Hkeys.
Qed.

(** X20: the order in which an object lists its settings does not matter.
    Two objects with the same properties in different orders leave
    [updateProjectSettings] in the same state, change notification
    included. *)
Theorem updateProjectSettings_any_order
    (newSettings newSettings' : JsObject) (ed : Editor) :
  NoDup (Object_keys newSettings) →
  newSettings ≡ₚ newSettings' →
  exec (updateProjectSettings newSettings) ed
    = exec (updateProjectSettings newSettings') ed.
Proof.
  intros Hnodup Hperm.
  assert (Object_keys newSettings ≡ₚ Object_keys newSettings') as Hkeys
    by (unfold Object_keys; by rewrite Hperm).
  assert (∀ key, differs newSettings (project ed) key
                 = differs newSettings' (project ed) key) as Hdiffers.
  { intros key. unfold differs, writes.
    rewrite (Object_get_Permutation newSettings newSettings') by done.
    f_equal. apply bool_decide_ext. by rewrite Hkeys. }
  destruct (updateProjectSettings_run newSettings ed) as (m & -> & Hm).
  destruct (updateProjectSettings_run newSettings' ed) as (m' & -> & Hm').
  assert (m = m') as <-.
  { apply map_eq. intros key. rewrite Hm, Hm', Hdiffers.
    by rewrite (Object_get_Permutation newSettings newSettings'). }
  assert (existsb (writes newSettings (project ed)) (Object_keys newSettings)
          = existsb (writes newSettings' (project ed)) (Object_keys newSettings'))
    as ->; [|done].
  pose proof (existsb_writes newSettings (project ed)) as H.
  pose proof (existsb_writes newSettings' (project ed)) as H'.
  destruct (existsb _ (Object_keys newSettings)) eqn:E;
    destruct (existsb _ (Object_keys newSettings')) eqn:E'; try done.
  - destruct (proj1 H eq_refl) as [key Hkey]. rewrite Hdiffers in Hkey.
    enough (false = true) by done. apply H'. by exists key.
  - destruct (proj1 H' eq_refl) as [key Hkey]. rewrite <- Hdiffers in Hkey.
    enough (false = true) by done. apply H. by exists key.
Qed.

Lemma updateProjectSettings_any_order_witness :
  exec (updateProjectSettings [("width", VNum 1280); ("name", VStr "Intro")])
       Demo.editor0
    = exec (updateProjectSettings [("name", VStr "Intro"); ("width", VNum 1280)])
           Demo.editor0.
Proof.
  apply updateProjectSettings_any_order.
  - cbn. apply NoDup_cons. split.
    + intros H. no_elem H.
    + apply NoDup_singleton.
  - apply Permutation_swap.
Defined.



(** The loop of [selectObjects] emits nothing and selects in order. *)
Lemma selectObjects_loop (more : MoreEngine) (objects : list JsVal) (ed : Editor) :
  forEach (fun (_ : unit) object => on_project (selection_select more object))
          tt objects ed
    = (tt, with_project
             (foldl (fun p object => selection_select more object p)
                    (project ed) objects) ed).
Proof.
  revert ed. induction objects as [|object objects IH]; intros ed.
  - cbn. by destruct ed.
  - rewrite forEach_cons. unfold on_project at 1, modify. rewrite IH.
    by destruct ed.
Qed.

(** X22: [selectObjects] makes one change notification however many objects
    it is given, none included; the objects are handed to the engine one by
    one in their order. *)
Theorem selectObjects_notifies_once
    (more : MoreEngine) (objects : list JsVal) (ed : Editor) :
  project (exec (selectObjects more objects) ed)
    = foldl (fun p object => selection_select more object p) (project ed) objects ∧
  emitted (selectObjects more objects) ed
    = [ProjectDidChange (action "Select Multiple Objects")].
Proof.
  split; [|apply emitted_of_log];
    unfold selectObjects, exec, mbind, M_bind;
    rewrite selectObjects_loop; reflexivity.
Qed.

(** The loop of [getClipAnimationTypes] over some of the keys, started with
    any list. *)
Lemma getClipAnimationTypes_loop
    (animationTypes : JsObject) (keys : list string)
    (outputTypes : list AnimationOption) (ed : Editor) :
  forEach (fun (outputTypes : list AnimationOption) key =>
             mret (outputTypes ++ [{| label := Object_get animationTypes key;
                                      value := key |}])%list)
          outputTypes keys ed
    = ((outputTypes
          ++ map (fun key => {| label := Object_get animationTypes key;
                                value := key |}) keys)%list, ed).
Proof.
  revert outputTypes. induction keys as [|key keys IH]; intros outputTypes.
  - cbn. by rewrite app_nil_r.
  - rewrite forEach_cons. unfold mret, M_ret at 1. rewrite IH.
    cbn [map]. by rewrite <- app_assoc.
Qed.

(** X13: [getClipAnimationTypes] lists one option per animation type, in the
    order of the table, and changes nothing.  The value of an option is the
    key and its label what the table holds under the key, so that the table
    can be read back from the list. *)
Theorem getClipAnimationTypes_reads_back
    (animationTypes : JsObject) (ed : Editor) :
  NoDup (Object_keys animationTypes) →
  let options := eval (getClipAnimationTypes animationTypes) ed in
  exec (getClipAnimationTypes animationTypes) ed = ed ∧
  map value options = Object_keys animationTypes ∧
  map (fun option => (value option, label option)) options = animationTypes.
Proof.
  intros Hnodup options. subst options.
  unfold getClipAnimationTypes, exec, eval.
  rewrite getClipAnimationTypes_loop. cbn [fst snd app].
  split; [reflexivity|]. rewrite !map_map. cbn. split; [apply map_id|].
  unfold Object_keys. rewrite map_map.
  rewrite <- (map_id animationTypes) at 2. apply map_ext_in.
  intros [key v] Hin%list_elem_of_In. cbn. f_equal.
  by apply Object_get_elem.
Qed.

Lemma getClipAnimationTypes_reads_back_witness :
  let animationTypes := [("None", VStr "No Animation"); ("loop", VStr "Loop")] in
  map (fun option => (value option, label option))
      (eval (getClipAnimationTypes animationTypes) Demo.editor0)
    = animationTypes.
Proof.
  intros animationTypes.
  assert (NoDup (Object_keys animationTypes)) as Hnodup.
  { cbn. apply NoDup_cons. split; [intros H; no_elem H | apply NoDup_singleton]. }
  exact (proj2 (proj2 (getClipAnimationTypes_reads_back animationTypes
                         Demo.editor0 Hnodup))).
Defined.
